(** * MindMates AURA: the browser chat client [script.js]

    A shallow embedding of the client script.  The script is a set of
    event handlers over a handful of DOM nodes and three module-level
    variables; every handler is embedded as a computation in a small
    state-and-exception monad over an explicit [State] record.  An
    [async] function is cut at its [await]: the part before it runs
    inside the handler that calls it, the part after it runs when the
    environment settles the request.

    Strings are sequences of UTF-8 bytes ([String.string]).  The two
    characters the script rewrites, [<] and [>], are single bytes that
    never occur inside a multi-byte sequence, so rewriting bytes and
    rewriting UTF-16 code units agree on well-formed text. *)

From Stdlib Require Import String Ascii List ZArith Lia Bool.
From Stdlib Require Import DecimalString.
Import ListNotations.
Open Scope string_scope.
Set Warnings "-register-all".

(** ** JavaScript values *)

(** The values [JSON.parse] produces, and [undefined].  Numbers are the
    integer-valued ones that print without an exponent; a fraction or an
    exponent behaves like any nonzero integer for every test the script
    makes (truthiness, having no [replace] method). *)
Inductive jsval : Type :=
| JUndefined
| JNull
| JBool (b : bool)
| JNum (z : Z)
| JStr (s : string)
| JArr (l : list jsval)
| JObj (fields : list (string * jsval)).

(** An [Error] object: its [name] and its [message]. *)
Record JsError : Type := mkError { err_name : string; err_message : string }.

Definition TypeError (msg : string) : JsError := mkError "TypeError" msg.

(** ToBoolean. *)
Definition truthy (v : jsval) : bool :=
  match v with
  | JUndefined | JNull => false
  | JBool b => b
  | JNum z => negb (z =? 0)%Z
  | JStr s => negb (s =? "")
  | JArr _ | JObj _ => true
  end.

(** ToString, as a template literal applies it. *)
Fixpoint js_toString (v : jsval) : string :=
  match v with
  | JUndefined => "undefined"
  | JNull => "null"
  | JBool true => "true"
  | JBool false => "false"
  | JNum z => NilZero.string_of_int (Z.to_int z)
  | JStr s => s
  | JArr l =>
      let elem x := match x with
                    | JUndefined | JNull => ""
                    | _ => js_toString x
                    end in
      String.concat "," (map elem l)
  | JObj _ => "[object Object]"
  end.

(** Own-property lookup in a parsed object: the last binding of a
    duplicated key is the one [JSON.parse] keeps. *)
Fixpoint lookup_field (k : string) (fields : list (string * jsval)) : option jsval :=
  match fields with
  | [] => None
  | (k', v) :: rest =>
      match lookup_field k rest with
      | Some w => Some w
      | None => if k' =? k then Some v else None
      end
  end.

(** ** String operations of the script *)

(** [s.replace(/c/g, r)] for a one-character pattern. *)
Fixpoint replaceAllChar (c : ascii) (r : string) (s : string) : string :=
  match s with
  | EmptyString => EmptyString
  | String a rest =>
      if Ascii.eqb a c then r ++ replaceAllChar c r rest
      else String a (replaceAllChar c r rest)
  end.

(** Line 16: [text.replace(/</g, "&lt;").replace(/>/g, "&gt;")]. *)
Definition sanitize (text : string) : string :=
  replaceAllChar ">" "&gt;" (replaceAllChar "<" "&lt;" text).

Definition byte_of (n : nat) : ascii := ascii_of_nat n.

(** White space and line terminators, by their UTF-8 encodings. *)
Definition ws1 (a : ascii) : bool :=
  let n := nat_of_ascii a in
  (((9 <=? n) && (n <=? 13)) || (n =? 32))%nat.

(** U+00A0. *)
Definition ws2 (a b : ascii) : bool :=
  ((nat_of_ascii a =? 194) && (nat_of_ascii b =? 160))%nat.

(** U+1680, U+2000..U+200A, U+2028, U+2029, U+202F, U+205F, U+3000, U+FEFF. *)
Definition ws3 (a b c : ascii) : bool :=
  let x := nat_of_ascii a in
  let y := nat_of_ascii b in
  let z := nat_of_ascii c in
  (((x =? 225) && (y =? 154) && (z =? 128))
   || ((x =? 226) && (y =? 128)
       && (((128 <=? z) && (z <=? 138)) || (z =? 168) || (z =? 169) || (z =? 175)))
   || ((x =? 226) && (y =? 129) && (z =? 159))
   || ((x =? 227) && (y =? 128) && (z =? 128))
   || ((x =? 239) && (y =? 187) && (z =? 191)))%nat.

Fixpoint trimStart (s : string) : string :=
  match s with
  | EmptyString => s
  | String a s1 =>
      if ws1 a then trimStart s1
      else match s1 with
           | EmptyString => s
           | String b s2 =>
               if ws2 a b then trimStart s2
               else match s2 with
                    | EmptyString => s
                    | String c s3 => if ws3 a b c then trimStart s3 else s
                    end
           end
  end.

Definition rev_string (s : string) : string :=
  string_of_list_ascii (rev (list_ascii_of_string s)).

(** The same scan from the right end, on the reversed bytes. *)
Fixpoint trimStartRev (s : string) : string :=
  match s with
  | EmptyString => s
  | String a s1 =>
      if ws1 a then trimStartRev s1
      else match s1 with
           | EmptyString => s
           | String b s2 =>
               if ws2 b a then trimStartRev s2
               else match s2 with
                    | EmptyString => s
                    | String c s3 => if ws3 c b a then trimStartRev s3 else s
                    end
           end
  end.

Definition trimEnd (s : string) : string := rev_string (trimStartRev (rev_string s)).

(** [String.prototype.trim]. *)
Definition trim (s : string) : string := trimEnd (trimStart s).

(** ** The page and the world around it *)

(** Binary data with a media type. *)
Record Blob : Type := mkBlob { blob_bytes : list Byte.byte; blob_type : string }.

(** [new Blob(parts, {type})]. *)
Definition new_Blob (parts : list Blob) (type : string) : Blob :=
  mkBlob (concat (map blob_bytes parts)) type.

(** The speaker [span] of lines 20-25; [icon_onclick] is the argument
    its click handler passes to [speakText]. *)
Record SpeakIcon : Type := mkIcon {
  icon_innerHTML : string;
  icon_cursor : string;
  icon_title : string;
  icon_onclick : jsval
}.

(** A [p] element of the conversation. *)
Record Element : Type := mkElement {
  innerHTML : string;
  speakIcon : option SpeakIcon
}.

Inductive RecorderState : Type := Inactive | Recording.

(** A [MediaRecorder]: the stream it records, its [state], and whether
    its [stop] event is queued and not yet fired. *)
Record Recorder : Type := mkRecorder {
  rec_stream : nat;
  rec_state : RecorderState;
  rec_stop_queued : bool
}.

Record ObjectURL : Type := mkURL { url_blob : Blob; url_revoked : bool }.

Record FormPart : Type := mkPart {
  part_name : string;
  part_blob : Blob;
  part_filename : string
}.

(** A request body: the value handed to [JSON.stringify], or a [FormData]. *)
Inductive ReqBody : Type :=
| JsonBody (v : jsval)
| FormBody (parts : list FormPart).

Record Request : Type := mkRequest {
  req_url : string;
  req_method : string;
  req_headers : list (string * string);
  req_body : ReqBody
}.

(** The [await] a fetch is suspended at. *)
Inductive Site : Type := SiteGreeting | SiteChat | SiteTranscribe | SiteSpeak.

Record FetchCall : Type := mkCall {
  fc_request : Request;
  fc_site : Site;
  fc_settled : bool
}.

(** A response: [body_json] is what [response.json()] resolves to and
    [body_blob] what [response.blob()] resolves to; [None] is a promise
    that rejects (a body that is not JSON, a connection lost while the
    body is read).  The script reads a body through one of the two, never
    both, so they are kept as two views.  A fetch and the reading of its
    body are two [await]s; the environment settles them in one event. *)
Record Response : Type := mkResponse {
  status : Z;
  body_json : option jsval;
  body_blob : option Blob
}.

(** [response.ok]. *)
Definition ok (r : Response) : bool := ((200 <=? status r) && (status r <=? 299))%Z.

Inductive FetchOutcome : Type :=
| FetchRejects (e : JsError)
| FetchResolves (r : Response).

(** What can go wrong after the microphone is granted. *)
Inductive RecorderFault : Type :=
| NoFault
| ConstructorThrows (e : JsError)
| StartThrows (e : JsError).

Inductive MicOutcome : Type :=
| MicRejects (e : JsError)
| MicGrants (fault : RecorderFault).

Record HistoryEntry : Type := mkEntry { role : string; text : string }.

(** The state of the page, of the script's variables and of what the
    script has asked of the browser:
    - [chatBox]: children of [#chat-box], oldest first
    - [userInput]: [userInput.value]
    - [voiceBtn_recording]: [voiceInputBtn.classList] contains [recording]
    - [voiceBtn_text]: [voiceInputBtn.textContent]
    - [mentalHealth_active]: [mentalHealthModeBtn.classList] contains [active]
    - [studyBuddy_active]: [studyBuddyModeBtn.classList] contains [active]
    - [ttsAudio_src]: [ttsAudio.src]: an object URL
    - [ttsAudio_onended]: [ttsAudio.onended]: the URL it revokes
    - [ttsAudio_plays]: calls of [ttsAudio.play()]
    - [currentChatMode]: line 8
    - [mediaRecorder]: line 9: a reference into [recorders]
    - [audioChunks]: line 10
    - [recorders]: every [MediaRecorder] constructed so far
    - [streams]: every granted stream: are its tracks live
    - [objectURLs]: every URL made by [URL.createObjectURL]
    - [fetches]: every [fetch] issued, in order
    - [micRequests]: every [getUserMedia] issued: is it settled
    - [console]: [console.error] lines
    - [uncaught]: uncaught exceptions and unhandled rejections. *)
Record State : Type := mkState {
  chatBox : list Element;
  userInput : string;
  voiceBtn_recording : bool;
  voiceBtn_text : string;
  mentalHealth_active : bool;
  studyBuddy_active : bool;
  ttsAudio_src : option nat;
  ttsAudio_onended : option nat;
  ttsAudio_plays : nat;
  currentChatMode : string;
  mediaRecorder : option nat;
  audioChunks : list Blob;
  recorders : list Recorder;
  streams : list bool;
  objectURLs : list ObjectURL;
  fetches : list FetchCall;
  micRequests : list bool;
  console : list (string * JsError);
  uncaught : list JsError
}.


Definition set_chatBox (v : list Element) (st : State) : State :=
  mkState v (userInput st) (voiceBtn_recording st) (voiceBtn_text st)
    (mentalHealth_active st) (studyBuddy_active st) (ttsAudio_src st)
    (ttsAudio_onended st) (ttsAudio_plays st) (currentChatMode st) (mediaRecorder st)
    (audioChunks st) (recorders st) (streams st) (objectURLs st) (fetches st)
    (micRequests st) (console st) (uncaught st).

Definition set_userInput (v : string) (st : State) : State :=
  mkState (chatBox st) v (voiceBtn_recording st) (voiceBtn_text st)
    (mentalHealth_active st) (studyBuddy_active st) (ttsAudio_src st)
    (ttsAudio_onended st) (ttsAudio_plays st) (currentChatMode st) (mediaRecorder st)
    (audioChunks st) (recorders st) (streams st) (objectURLs st) (fetches st)
    (micRequests st) (console st) (uncaught st).

Definition set_voiceBtn_recording (v : bool) (st : State) : State :=
  mkState (chatBox st) (userInput st) v (voiceBtn_text st) (mentalHealth_active st)
    (studyBuddy_active st) (ttsAudio_src st) (ttsAudio_onended st) (ttsAudio_plays st)
    (currentChatMode st) (mediaRecorder st) (audioChunks st) (recorders st) (streams st)
    (objectURLs st) (fetches st) (micRequests st) (console st) (uncaught st).

Definition set_voiceBtn_text (v : string) (st : State) : State :=
  mkState (chatBox st) (userInput st) (voiceBtn_recording st) v (mentalHealth_active st)
    (studyBuddy_active st) (ttsAudio_src st) (ttsAudio_onended st) (ttsAudio_plays st)
    (currentChatMode st) (mediaRecorder st) (audioChunks st) (recorders st) (streams st)
    (objectURLs st) (fetches st) (micRequests st) (console st) (uncaught st).

Definition set_mentalHealth_active (v : bool) (st : State) : State :=
  mkState (chatBox st) (userInput st) (voiceBtn_recording st) (voiceBtn_text st) v
    (studyBuddy_active st) (ttsAudio_src st) (ttsAudio_onended st) (ttsAudio_plays st)
    (currentChatMode st) (mediaRecorder st) (audioChunks st) (recorders st) (streams st)
    (objectURLs st) (fetches st) (micRequests st) (console st) (uncaught st).

Definition set_studyBuddy_active (v : bool) (st : State) : State :=
  mkState (chatBox st) (userInput st) (voiceBtn_recording st) (voiceBtn_text st)
    (mentalHealth_active st) v (ttsAudio_src st) (ttsAudio_onended st)
    (ttsAudio_plays st) (currentChatMode st) (mediaRecorder st) (audioChunks st)
    (recorders st) (streams st) (objectURLs st) (fetches st) (micRequests st)
    (console st) (uncaught st).

Definition set_ttsAudio_src (v : option nat) (st : State) : State :=
  mkState (chatBox st) (userInput st) (voiceBtn_recording st) (voiceBtn_text st)
    (mentalHealth_active st) (studyBuddy_active st) v (ttsAudio_onended st)
    (ttsAudio_plays st) (currentChatMode st) (mediaRecorder st) (audioChunks st)
    (recorders st) (streams st) (objectURLs st) (fetches st) (micRequests st)
    (console st) (uncaught st).

Definition set_ttsAudio_onended (v : option nat) (st : State) : State :=
  mkState (chatBox st) (userInput st) (voiceBtn_recording st) (voiceBtn_text st)
    (mentalHealth_active st) (studyBuddy_active st) (ttsAudio_src st) v
    (ttsAudio_plays st) (currentChatMode st) (mediaRecorder st) (audioChunks st)
    (recorders st) (streams st) (objectURLs st) (fetches st) (micRequests st)
    (console st) (uncaught st).

Definition set_ttsAudio_plays (v : nat) (st : State) : State :=
  mkState (chatBox st) (userInput st) (voiceBtn_recording st) (voiceBtn_text st)
    (mentalHealth_active st) (studyBuddy_active st) (ttsAudio_src st)
    (ttsAudio_onended st) v (currentChatMode st) (mediaRecorder st) (audioChunks st)
    (recorders st) (streams st) (objectURLs st) (fetches st) (micRequests st)
    (console st) (uncaught st).

Definition set_currentChatMode (v : string) (st : State) : State :=
  mkState (chatBox st) (userInput st) (voiceBtn_recording st) (voiceBtn_text st)
    (mentalHealth_active st) (studyBuddy_active st) (ttsAudio_src st)
    (ttsAudio_onended st) (ttsAudio_plays st) v (mediaRecorder st) (audioChunks st)
    (recorders st) (streams st) (objectURLs st) (fetches st) (micRequests st)
    (console st) (uncaught st).

Definition set_mediaRecorder (v : option nat) (st : State) : State :=
  mkState (chatBox st) (userInput st) (voiceBtn_recording st) (voiceBtn_text st)
    (mentalHealth_active st) (studyBuddy_active st) (ttsAudio_src st)
    (ttsAudio_onended st) (ttsAudio_plays st) (currentChatMode st) v (audioChunks st)
    (recorders st) (streams st) (objectURLs st) (fetches st) (micRequests st)
    (console st) (uncaught st).

Definition set_audioChunks (v : list Blob) (st : State) : State :=
  mkState (chatBox st) (userInput st) (voiceBtn_recording st) (voiceBtn_text st)
    (mentalHealth_active st) (studyBuddy_active st) (ttsAudio_src st)
    (ttsAudio_onended st) (ttsAudio_plays st) (currentChatMode st) (mediaRecorder st) v
    (recorders st) (streams st) (objectURLs st) (fetches st) (micRequests st)
    (console st) (uncaught st).

Definition set_recorders (v : list Recorder) (st : State) : State :=
  mkState (chatBox st) (userInput st) (voiceBtn_recording st) (voiceBtn_text st)
    (mentalHealth_active st) (studyBuddy_active st) (ttsAudio_src st)
    (ttsAudio_onended st) (ttsAudio_plays st) (currentChatMode st) (mediaRecorder st)
    (audioChunks st) v (streams st) (objectURLs st) (fetches st) (micRequests st)
    (console st) (uncaught st).

Definition set_streams (v : list bool) (st : State) : State :=
  mkState (chatBox st) (userInput st) (voiceBtn_recording st) (voiceBtn_text st)
    (mentalHealth_active st) (studyBuddy_active st) (ttsAudio_src st)
    (ttsAudio_onended st) (ttsAudio_plays st) (currentChatMode st) (mediaRecorder st)
    (audioChunks st) (recorders st) v (objectURLs st) (fetches st) (micRequests st)
    (console st) (uncaught st).

Definition set_objectURLs (v : list ObjectURL) (st : State) : State :=
  mkState (chatBox st) (userInput st) (voiceBtn_recording st) (voiceBtn_text st)
    (mentalHealth_active st) (studyBuddy_active st) (ttsAudio_src st)
    (ttsAudio_onended st) (ttsAudio_plays st) (currentChatMode st) (mediaRecorder st)
    (audioChunks st) (recorders st) (streams st) v (fetches st) (micRequests st)
    (console st) (uncaught st).

Definition set_fetches (v : list FetchCall) (st : State) : State :=
  mkState (chatBox st) (userInput st) (voiceBtn_recording st) (voiceBtn_text st)
    (mentalHealth_active st) (studyBuddy_active st) (ttsAudio_src st)
    (ttsAudio_onended st) (ttsAudio_plays st) (currentChatMode st) (mediaRecorder st)
    (audioChunks st) (recorders st) (streams st) (objectURLs st) v (micRequests st)
    (console st) (uncaught st).

Definition set_micRequests (v : list bool) (st : State) : State :=
  mkState (chatBox st) (userInput st) (voiceBtn_recording st) (voiceBtn_text st)
    (mentalHealth_active st) (studyBuddy_active st) (ttsAudio_src st)
    (ttsAudio_onended st) (ttsAudio_plays st) (currentChatMode st) (mediaRecorder st)
    (audioChunks st) (recorders st) (streams st) (objectURLs st) (fetches st) v
    (console st) (uncaught st).

Definition set_console (v : list (string * JsError)) (st : State) : State :=
  mkState (chatBox st) (userInput st) (voiceBtn_recording st) (voiceBtn_text st)
    (mentalHealth_active st) (studyBuddy_active st) (ttsAudio_src st)
    (ttsAudio_onended st) (ttsAudio_plays st) (currentChatMode st) (mediaRecorder st)
    (audioChunks st) (recorders st) (streams st) (objectURLs st) (fetches st)
    (micRequests st) v (uncaught st).

Definition set_uncaught (v : list JsError) (st : State) : State :=
  mkState (chatBox st) (userInput st) (voiceBtn_recording st) (voiceBtn_text st)
    (mentalHealth_active st) (studyBuddy_active st) (ttsAudio_src st)
    (ttsAudio_onended st) (ttsAudio_plays st) (currentChatMode st) (mediaRecorder st)
    (audioChunks st) (recorders st) (streams st) (objectURLs st) (fetches st)
    (micRequests st) (console st) v.

(** The page as the script finds it when it is loaded. *)
Definition initial_state : State :=
  mkState [] "" false "" false false None None 0
          "mental_health" None [] [] [] [] [] [] [] [].

(** ** Computations: state and exceptions *)

Inductive Result (A : Type) : Type :=
| Ok (a : A)
| Throw (e : JsError).
Arguments Ok {A} a.
Arguments Throw {A} e.

Definition M (A : Type) : Type := State -> Result A * State.

Definition ret {A} (a : A) : M A := fun st => (Ok a, st).

Definition bind {A B} (m : M A) (k : A -> M B) : M B :=
  fun st => match m st with
            | (Ok a, st') => k a st'
            | (Throw e, st') => (Throw e, st')
            end.

Definition throw {A} (e : JsError) : M A := fun st => (Throw e, st).

(** [try { body } catch (error) { handler }]: what [body] did before it
    threw stays done. *)
Definition try_catch {A} (body : M A) (handler : JsError -> M A) : M A :=
  fun st => match body st with
            | (Ok a, st') => (Ok a, st')
            | (Throw e, st') => handler e st'
            end.

Definition gets {A} (f : State -> A) : M A := fun st => (Ok (f st), st).

Definition modify (f : State -> State) : M unit := fun st => (Ok tt, f st).

Notation "x <- c1 ;; c2" := (bind c1 (fun x => c2))
  (at level 61, c1 at next level, right associativity).
Notation "c1 ;; c2" := (bind c1 (fun _ => c2))
  (at level 61, right associativity).

(** Calling an [async] function and dropping its promise, or running a
    handler from the event loop: nothing is thrown to the caller, and an
    exception that leaves the body is reported as uncaught. *)
Definition detached (body : M unit) : M unit :=
  fun st => match body st with
            | (Ok _, st') => (Ok tt, st')
            | (Throw e, st') => (Ok tt, set_uncaught (uncaught st' ++ [e]) st')
            end.

Definition run (body : M unit) (st : State) : State := snd (detached body st).

Fixpoint forEach {A} (f : A -> M unit) (l : list A) : M unit :=
  match l with
  | [] => ret tt
  | x :: rest => f x ;; forEach f rest
  end.

(** ** Primitive actions *)

Definition console_error (label : string) (e : JsError) : M unit :=
  modify (fun st => set_console (console st ++ [(label, e)]) st).

(** [fetch(...)]: the call is logged with the [await] that waits for it. *)
Definition fetch (r : Request) (site : Site) : M unit :=
  modify (fun st => set_fetches (fetches st ++ [mkCall r site false]) st).

Definition json_headers : list (string * string) :=
  [("Content-Type", "application/json")].

(** [await fetch(...)], once the environment has settled the call. *)
Definition await_fetch (o : FetchOutcome) : M Response :=
  match o with
  | FetchRejects e => throw e
  | FetchResolves r => ret r
  end.

(** [await response.json()]. *)
Definition response_json (r : Response) : M jsval :=
  match body_json r with
  | Some v => ret v
  | None => throw (mkError "SyntaxError" "Unexpected token in JSON")
  end.

(** [await response.blob()]. *)
Definition response_blob (r : Response) : M Blob :=
  match body_blob r with
  | Some b => ret b
  | None => throw (TypeError "Failed to fetch")
  end.

(** The value of property [k] of a parsed object. *)
Definition field_of (fields : list (string * jsval)) (k : string) : jsval :=
  match lookup_field k fields with Some v => v | None => JUndefined end.

(** [data.k] for the keys the script reads ([response], [text],
    [error]): none of them is a built-in property of a primitive or of
    an array. *)
Definition get_prop (data : jsval) (k : string) : M jsval :=
  match data with
  | JUndefined | JNull =>
      throw (TypeError ("Cannot read properties of " ++ js_toString data))
  | JObj fields => ret (field_of fields k)
  | _ => ret JUndefined
  end.

(** [text.replace(...).replace(...)] on an arbitrary value: only a
    string has the method. *)
Definition sanitized (text : jsval) : M string :=
  match text with
  | JStr s => ret (sanitize s)
  | JUndefined | JNull =>
      throw (TypeError ("Cannot read properties of " ++ js_toString text))
  | _ => throw (TypeError "text.replace is not a function")
  end.

(** ** The script *)

Definition mic_label : string := "🎤".
Definition rec_label : string := "🔴 Recording...".
Definition speaker_label : string := " 🔊".

(** Lines 13-29.  The icon's handler closes over [text], not over
    [sanitizedText].  Scrolling is layout and is not modelled. *)
Definition displayMessage (sender : string) (text : jsval) (canSpeak : bool) : M unit :=
  sanitizedText <- sanitized text ;;
  let html := "<strong>" ++ sender ++ ":</strong> " ++ sanitizedText in
  let icon :=
    if canSpeak && (sender =? "MindMate")
    then Some (mkIcon speaker_label "pointer" "Listen to response" text)
    else None in
  modify (fun st => set_chatBox (chatBox st ++ [mkElement html icon]) st).

Definition greeting_text : string := "Hello MindMate, I'm here.".

Definition chat_request (message chat_type : string) : Request :=
  mkRequest "/chat" "POST" json_headers
            (JsonBody (JObj [("message", JStr message); ("chat_type", JStr chat_type)])).

Definition greeting_failure : string :=
  "I'm sorry, I couldn't start our conversation. Please try refreshing the page.".

(** Lines 32-38: [sendInitialGreeting] up to its first [await]. *)
Definition sendInitialGreeting : M unit :=
  detached (
    mode <- gets currentChatMode ;;
    fetch (chat_request greeting_text mode) SiteGreeting).

(** Lines 34-44: the rest of [sendInitialGreeting]. *)
Definition sendInitialGreeting_resume (o : FetchOutcome) : M unit :=
  try_catch
    (response <- await_fetch o ;;
     data <- response_json response ;;
     reply <- get_prop data "response" ;;
     displayMessage "MindMate" reply true)
    (fun error =>
       console_error "Error sending initial greeting:" error ;;
       displayMessage "MindMate" (JStr greeting_failure) false).

(** Lines 48-59: [window.onload]; [None] is an undefined [initialHistory]. *)
Definition onload (initialHistory : option (list HistoryEntry)) : M unit :=
  match initialHistory with
  | Some ((_ :: _) as history) =>
      forEach (fun msg =>
                 displayMessage (if role msg =? "user" then "You" else "MindMate")
                                (JStr (text msg))
                                (role msg =? "model"))
              history
  | _ => sendInitialGreeting
  end.

Definition chat_failure : string :=
  "Sorry, I'm having trouble responding right now. Please try again.".

(** Lines 63-76: [sendMessage] up to its first [await]. *)
Definition sendMessage : M unit :=
  detached (
    raw <- gets userInput ;;
    let userText := trim raw in
    if userText =? "" then ret tt
    else
      displayMessage "You" (JStr userText) false ;;
      modify (set_userInput "") ;;
      mode <- gets currentChatMode ;;
      fetch (chat_request userText mode) SiteChat).

(** Lines 72-87: the rest of [sendMessage]. *)
Definition sendMessage_resume (o : FetchOutcome) : M unit :=
  try_catch
    (response <- await_fetch o ;;
     (if negb (ok response)
      then throw (mkError "Error"
                    ("Server responded with status: " ++ js_toString (JNum (status response))))
      else ret tt) ;;
     data <- response_json response ;;
     reply <- get_prop data "response" ;;
     displayMessage "MindMate" reply true)
    (fun error =>
       console_error "Error sending message:" error ;;
       displayMessage "MindMate" (JStr chat_failure) false).

(** Lines 91-95. *)
Definition onkeypress (key : string) : M unit :=
  if key =? "Enter" then sendMessage else ret tt.

(** *** Speech to text: lines 97-165 *)

(** [l] with its [n]-th element replaced by its image under [f]; [l]
    itself when [n] is out of range. *)
Definition update_nth {A} (n : nat) (f : A -> A) (l : list A) : list A :=
  firstn n l ++ match nth_error l n with
                | Some x => f x :: skipn (S n) l
                | None => []
                end.

Definition is_recording (r : Recorder) : bool :=
  match rec_state r with Recording => true | Inactive => false end.

(** [mediaRecorder.stop()] on a recording recorder: it goes inactive
    and its [stop] event is queued. *)
Definition recorder_stop (rid : nat) : M unit :=
  modify (fun st =>
    set_recorders
      (update_nth rid (fun r => mkRecorder (rec_stream r) Inactive true) (recorders st)) st).

(** [navigator.mediaDevices.getUserMedia({ audio: true })].  Where the
    browser has no [mediaDevices] the call throws inside the same [try];
    that is the request rejected with a [TypeError]. *)
Definition getUserMedia : M unit :=
  modify (fun st => set_micRequests (micRequests st ++ [false]) st).

(** Lines 98-109: the click handler up to its [await]. *)
Definition onVoiceClick : M unit :=
  recording <- gets voiceBtn_recording ;;
  if recording then
    mr <- gets mediaRecorder ;;
    rs <- gets recorders ;;
    (match mr with
     | Some rid =>
         match nth_error rs rid with
         | Some r => if is_recording r then recorder_stop rid else ret tt
         | None => ret tt
         end
     | None => ret tt
     end) ;;
    modify (set_voiceBtn_recording false) ;;
    modify (set_voiceBtn_text mic_label)
  else getUserMedia.

(** [await getUserMedia(...)], settled: a grant opens a new stream. *)
Definition await_mic (o : MicOutcome) : M (nat * RecorderFault) :=
  match o with
  | MicRejects e => throw e
  | MicGrants fault =>
      stream <- gets (fun st => length (streams st)) ;;
      modify (fun st => set_streams (streams st ++ [true]) st) ;;
      ret (stream, fault)
  end.

(** [new MediaRecorder(stream)]. *)
Definition new_MediaRecorder (stream : nat) (fault : RecorderFault) : M nat :=
  match fault with
  | ConstructorThrows e => throw e
  | _ =>
      rid <- gets (fun st => length (recorders st)) ;;
      modify (fun st => set_recorders (recorders st ++ [mkRecorder stream Inactive false]) st) ;;
      ret rid
  end.

(** [mediaRecorder.start()]. *)
Definition recorder_start (rid : nat) (fault : RecorderFault) : M unit :=
  match fault with
  | StartThrows e => throw e
  | _ =>
      modify (fun st =>
        set_recorders
          (update_nth rid (fun r => mkRecorder (rec_stream r) Recording (rec_stop_queued r))
                      (recorders st)) st)
  end.

Definition mic_denied : string :=
  "Microphone access was denied. Please enable it in your browser's site settings and refresh the page.".
Definition mic_missing : string :=
  "No microphone was found. Please ensure a microphone is connected and enabled.".
Definition mic_other : string :=
  "Could not access microphone. Please ensure permissions are granted and no other app is using it.".

(** The message the [catch] of lines 150-163 picks from [error.name]. *)
Definition mic_message (name : string) : string :=
  if (name =? "NotAllowedError") || (name =? "PermissionDeniedError") then mic_denied
  else if (name =? "NotFoundError") || (name =? "DevicesNotFoundError") then mic_missing
  else mic_other.

(** Lines 109-163: the rest of the click handler.  The two recorder
    handlers it installs are [ondataavailable] and [onstop] below. *)
Definition onVoiceClick_resume (o : MicOutcome) : M unit :=
  try_catch
    (granted <- await_mic o ;;
     let (stream, fault) := granted : nat * RecorderFault in
     modify (set_voiceBtn_recording true) ;;
     modify (set_voiceBtn_text rec_label) ;;
     rid <- new_MediaRecorder stream fault ;;
     modify (set_mediaRecorder (Some rid)) ;;
     modify (set_audioChunks []) ;;
     recorder_start rid fault)
    (fun error =>
       console_error "Error accessing microphone:" error ;;
       modify (set_voiceBtn_recording false) ;;
       modify (set_voiceBtn_text mic_label) ;;
       displayMessage "System" (JStr (mic_message (err_name error))) false).

(** Lines 118-120. *)
Definition ondataavailable (data : Blob) : M unit :=
  modify (fun st => set_audioChunks (audioChunks st ++ [data]) st).

Definition transcribe_request (audioBlob : Blob) : Request :=
  mkRequest "/speech_to_text" "POST" [] (FormBody [mkPart "audio" audioBlob "audio.webm"]).

(** Lines 122-134: [onstop] of the recorder on [stream], up to its [await]. *)
Definition onstop (stream : nat) : M unit :=
  modify (fun st => set_streams (update_nth stream (fun _ => false) (streams st)) st) ;;
  chunks <- gets audioChunks ;;
  let audioBlob := new_Blob chunks "audio/webm" in
  fetch (transcribe_request audioBlob) SiteTranscribe.

Definition transcribe_failure : string := "Could not process audio for transcription.".

(** Lines 131-145: the rest of [onstop].  The input field stores the
    string it is assigned. *)
Definition onstop_resume (o : FetchOutcome) : M unit :=
  try_catch
    (response <- await_fetch o ;;
     data <- response_json response ;;
     t <- get_prop data "text" ;;
     if truthy t then
       modify (set_userInput (js_toString t)) ;;
       sendMessage
     else
       e <- get_prop data "error" ;;
       if truthy e
       then displayMessage "System" (JStr ("Speech-to-Text Error: " ++ js_toString e)) false
       else ret tt)
    (fun error =>
       console_error "Error sending audio for transcription:" error ;;
       displayMessage "System" (JStr transcribe_failure) false).

(** *** Text to speech: lines 168-193 *)

Definition speak_request (text : jsval) : Request :=
  mkRequest "/text_to_speech" "POST" json_headers (JsonBody (JObj [("text", text)])).

(** Lines 169-175: [speakText] up to its first [await]. *)
Definition speakText (text : jsval) : M unit :=
  detached (fetch (speak_request text) SiteSpeak).

Definition speak_failure : string := "Failed to convert response to speech.".

(** Lines 171-192: the rest of [speakText].  The promise [play()]
    returns is dropped by the script and is not followed here. *)
Definition speakText_resume (o : FetchOutcome) : M unit :=
  try_catch
    (response <- await_fetch o ;;
     if ok response then
       audioBlob <- response_blob response ;;
       audioUrl <- gets (fun st => length (objectURLs st)) ;;
       modify (fun st => set_objectURLs (objectURLs st ++ [mkURL audioBlob false]) st) ;;
       modify (set_ttsAudio_src (Some audioUrl)) ;;
       modify (fun st => set_ttsAudio_plays (S (ttsAudio_plays st)) st) ;;
       modify (set_ttsAudio_onended (Some audioUrl))
     else
       errorData <- response_json response ;;
       e <- get_prop errorData "error" ;;
       displayMessage "System" (JStr ("Text-to-Speech Error: " ++ js_toString e)) false)
    (fun error =>
       console_error "Error with text-to-speech:" error ;;
       displayMessage "System" (JStr speak_failure) false).

(** Lines 182-184: [ttsAudio.onended]. *)
Definition onended : M unit :=
  h <- gets ttsAudio_onended ;;
  match h with
  | Some audioUrl =>
      modify (fun st =>
        set_objectURLs
          (update_nth audioUrl (fun u => mkURL (url_blob u) true) (objectURLs st)) st)
  | None => ret tt
  end.

(** Line 24: a click on the speaker icon of the [i]-th line. *)
Definition onSpeakClick (i : nat) : M unit :=
  lines <- gets chatBox ;;
  match nth_error lines i with
  | Some (mkElement _ (Some icon)) => speakText (icon_onclick icon)
  | _ => ret tt
  end.

(** *** Mode switching: lines 195-225 *)

Definition mental_health_announcement : string :=
  "Switched to Mental Health Assistant mode. How are you feeling today?".
Definition study_buddy_announcement : string :=
  "Switched to AI Study Buddy mode. What would you like to learn about?".

(** Lines 196-207. *)
Definition switchMode (newMode : string) : M unit :=
  modify (set_currentChatMode newMode) ;;
  if newMode =? "mental_health" then
    modify (set_mentalHealth_active true) ;;
    modify (set_studyBuddy_active false) ;;
    displayMessage "System" (JStr mental_health_announcement) false
  else
    modify (set_studyBuddy_active true) ;;
    modify (set_mentalHealth_active false) ;;
    displayMessage "System" (JStr study_buddy_announcement) false.

(** Lines 209-216 and 218-225: the click handler of a mode button. *)
Definition onModeClick (mode : string) : M unit :=
  current <- gets currentChatMode ;;
  if negb (current =? mode) then
    modify (set_chatBox []) ;;
    switchMode mode ;;
    sendInitialGreeting
  else ret tt.

Definition onMentalHealthClick : M unit := onModeClick "mental_health".
Definition onStudyBuddyClick : M unit := onModeClick "study_buddy".

(** ** The event loop *)

Inductive Event : Type :=
| Load (initialHistory : option (list HistoryEntry))
| UserTypes (value : string)
| KeyPress (key : string)
| VoiceClick
| MicSettles (id : nat) (o : MicOutcome)
| DataAvailable (rid : nat) (data : Blob)
| RecorderStops (rid : nat)
| FetchSettles (id : nat) (o : FetchOutcome)
| SpeakClick (line : nat)
| AudioEnded
| MentalHealthClick
| StudyBuddyClick.

(** The continuation suspended at a fetch. *)
Definition resume (site : Site) (o : FetchOutcome) : M unit :=
  match site with
  | SiteGreeting => sendInitialGreeting_resume o
  | SiteChat => sendMessage_resume o
  | SiteTranscribe => onstop_resume o
  | SiteSpeak => speakText_resume o
  end.

(** Settling the [id]-th fetch wakes its continuation, once. *)
Definition onFetchSettles (id : nat) (o : FetchOutcome) : M unit :=
  calls <- gets fetches ;;
  match nth_error calls id with
  | Some c =>
      if fc_settled c then ret tt
      else
        modify (fun st =>
          set_fetches
            (update_nth id (fun c => mkCall (fc_request c) (fc_site c) true) (fetches st)) st) ;;
        resume (fc_site c) o
  | None => ret tt
  end.

Definition onMicSettles (id : nat) (o : MicOutcome) : M unit :=
  reqs <- gets micRequests ;;
  match nth_error reqs id with
  | Some false =>
      modify (fun st => set_micRequests (update_nth id (fun _ => true) (micRequests st)) st) ;;
      onVoiceClick_resume o
  | _ => ret tt
  end.

(** A recorder fires [dataavailable] while it records or while its
    [stop] is queued. *)
Definition onDataAvailable (rid : nat) (data : Blob) : M unit :=
  rs <- gets recorders ;;
  match nth_error rs rid with
  | Some r => if is_recording r || rec_stop_queued r then ondataavailable data else ret tt
  | None => ret tt
  end.

(** A recorder fires [stop] after [stop()] was called on it, or when
    its stream ends while it records. *)
Definition onRecorderStops (rid : nat) : M unit :=
  rs <- gets recorders ;;
  match nth_error rs rid with
  | Some r =>
      if is_recording r || rec_stop_queued r then
        modify (fun st =>
          set_recorders
            (update_nth rid (fun r => mkRecorder (rec_stream r) Inactive false) (recorders st)) st) ;;
        detached (onstop (rec_stream r))
      else ret tt
  | None => ret tt
  end.

Definition handler (e : Event) : M unit :=
  match e with
  | Load initialHistory => onload initialHistory
  | UserTypes value => modify (set_userInput value)
  | KeyPress key => onkeypress key
  | VoiceClick => onVoiceClick
  | MicSettles id o => onMicSettles id o
  | DataAvailable rid data => onDataAvailable rid data
  | RecorderStops rid => onRecorderStops rid
  | FetchSettles id o => onFetchSettles id o
  | SpeakClick i => onSpeakClick i
  | AudioEnded => onended
  | MentalHealthClick => onMentalHealthClick
  | StudyBuddyClick => onStudyBuddyClick
  end.

(** One turn of the event loop. *)
Definition handle (e : Event) (st : State) : State := run (handler e) st.

Definition handle_all (es : list Event) (st : State) : State :=
  fold_left (fun s e => handle e s) es st.

(** ** Vocabulary of the specification *)

(** The escaping the specification describes, one character at a time:
    [<] becomes [&lt;], [>] becomes [&gt;], anything else stays. *)
Fixpoint escape_spec (t : string) : string :=
  match t with
  | EmptyString => EmptyString
  | String a rest =>
      (if Ascii.eqb a "<" then "&lt;"
       else if Ascii.eqb a ">" then "&gt;"
       else String a EmptyString) ++ escape_spec rest
  end.

(** [c] occurs in [s]. *)
Definition occurs (c : ascii) (s : string) : Prop := In c (list_ascii_of_string s).

(** A rendered line without the listen affordance. *)
Definition plain_line (sender text : string) : Element :=
  mkElement ("<strong>" ++ sender ++ ":</strong> " ++ sanitize text) None.

(** A rendered assistant line with the listen affordance for [text]. *)
Definition speakable_line (text : string) : Element :=
  mkElement ("<strong>MindMate:</strong> " ++ sanitize text)
            (Some (mkIcon speaker_label "pointer" "Listen to response" (JStr text))).

(** The line the specification expects for a history entry. *)
Definition entry_line (msg : HistoryEntry) : Element :=
  if role msg =? "user" then plain_line "You" (text msg)
  else if role msg =? "model" then speakable_line (text msg)
  else plain_line "MindMate" (text msg).

Definition speakable (el : Element) : bool :=
  match speakIcon el with Some _ => true | None => false end.

(** The call a fetch leaves in the log, before and after it settles. *)
Definition pending_call (r : Request) (site : Site) : FetchCall := mkCall r site false.
Definition settled_call (r : Request) (site : Site) : FetchCall := mkCall r site true.

(** The page after a switch to [mode]: the conversation holds the
    announcement only, the mode and the active marks are set, and one
    greeting call for the new mode is pending. *)
Definition switched (mode announcement : string) (st : State) : State :=
  set_fetches
    (fetches st ++ [pending_call (chat_request greeting_text mode) SiteGreeting])
    (set_chatBox [mkElement ("<strong>System:</strong> " ++ announcement) None]
       (set_mentalHealth_active (mode =? "mental_health")
          (set_studyBuddy_active (negb (mode =? "mental_health"))
             (set_currentChatMode mode st)))).

(** The error line 79 throws. *)
Definition status_error (r : Response) : JsError :=
  mkError "Error" ("Server responded with status: " ++ js_toString (JNum (status r))).

(** A recorded clip of no chunks. *)
Definition empty_clip : Blob := mkBlob [] "audio/webm".

(** The line each continuation renders when its fetch is rejected, and
    the label of its console trace. *)
Definition failure_line (site : Site) : Element :=
  match site with
  | SiteGreeting => plain_line "MindMate" greeting_failure
  | SiteChat => plain_line "MindMate" chat_failure
  | SiteTranscribe => plain_line "System" transcribe_failure
  | SiteSpeak => plain_line "System" speak_failure
  end.

Definition failure_label (site : Site) : string :=
  match site with
  | SiteGreeting => "Error sending initial greeting:"
  | SiteChat => "Error sending message:"
  | SiteTranscribe => "Error sending audio for transcription:"
  | SiteSpeak => "Error with text-to-speech:"
  end.

(** The string reply a response body carries, if any. *)
Definition reply_of (r : Response) : option string :=
  match body_json r with
  | Some (JObj fields) =>
      match lookup_field "response" fields with
      | Some (JStr s) => Some s
      | _ => None
      end
  | _ => None
  end.

(** The console trace of the microphone [catch], and what that [catch]
    leaves behind. *)
Definition mic_trace (e : JsError) : string * JsError := ("Error accessing microphone:", e).

Definition mic_failed (e : JsError) (st : State) : State :=
  set_chatBox (chatBox st ++ [plain_line "System" (mic_message (err_name e))])
    (set_voiceBtn_text mic_label
       (set_voiceBtn_recording false
          (set_console (console st ++ [mic_trace e]) st))).

(** The one event that starts a recording: a pending microphone
    request is granted and the recorder starts. *)
Definition starts_recording (e : Event) (st : State) : Prop :=
  exists id, e = MicSettles id (MicGrants NoFault)
             /\ nth_error (micRequests st) id = Some false.

(** The button does not show a recording. *)
Definition idle (st : State) : Prop := voiceBtn_recording st = false.

(** Every recorder that records has its index in [S]. *)
Definition recording_within (S : nat -> Prop) (st : State) : Prop :=
  forall rid r, nth_error (recorders st) rid = Some r -> is_recording r = true -> S rid.

(** A line with a listen affordance is an assistant line, and the
    affordance holds the text the line was rendered from. *)
Definition line_ok (el : Element) : Prop :=
  match speakIcon el with
  | Some _ => exists t, el = speakable_line t
  | None => True
  end.

Definition lines_ok (st : State) : Prop := Forall line_ok (chatBox st).

(** The states the page can be in: the initial one, and any state an
    event leads to from one of them. *)
Inductive reachable : State -> Prop :=
| reach_init : reachable initial_state
| reach_step (e : Event) (st : State) : reachable st -> reachable (handle e st).

(** [m] keeps [P], whether it returns or throws. *)
Definition preserves (P : State -> Prop) {A} (m : M A) : Prop :=
  forall st, P st -> P (snd (m st)).

(** ** Vocabulary of the further properties *)

(** The log of fetches with the [id]-th call marked as settled. *)
Definition settle (id : nat) (st : State) : State :=
  set_fetches
    (update_nth id (fun c => mkCall (fc_request c) (fc_site c) true) (fetches st)) st.

(** The requests issued so far, in order. *)
Definition requests (st : State) : list Request := map fc_request (fetches st).

(** ** Sample runs *)

(** A successful reply, a failure without a body, and two failures
    whose bodies are JSON. *)
Definition sample_reply : Response :=
  mkResponse 200 (Some (JObj [("response", JStr "Hi <there>")])) None.

Definition server_error : Response := mkResponse 500 None None.

Definition error_with_reply : Response :=
  mkResponse 500 (Some (JObj [("response", JStr "Internal Server Error")])) None.

Definition error_without_fields : Response :=
  mkResponse 500 (Some (JObj [])) None.

(** The history of the specification's example. *)
Definition sample_history : list HistoryEntry :=
  [mkEntry "user" "hi"; mkEntry "model" "hello"].

(** The page after the greeting was answered. *)
Definition greeted : State :=
  handle (FetchSettles 0 (FetchResolves sample_reply)) (handle (Load None) initial_state).

(** The user typed a message and pressed Enter; the answer is awaited. *)
Definition awaiting_chat : State :=
  handle (KeyPress "Enter") (handle (UserTypes " hi ") initial_state).

(** The microphone button was clicked; the permission is awaited. *)
Definition asked_for_microphone : State := handle VoiceClick initial_state.

Definition permission_denied : JsError := mkError "NotAllowedError" "Permission denied".

(** The permission was granted: a recording runs, no chunk has arrived. *)
Definition recording_without_chunks : State :=
  handle (MicSettles 0 (MicGrants NoFault)) asked_for_microphone.

(** That recording was stopped; the transcript is awaited. *)
Definition awaiting_transcript : State :=
  handle (RecorderStops 0) (handle VoiceClick recording_without_chunks).

(** ** Vocabulary and sample runs of the further properties *)

(** The error of a fetch that could not reach the server. *)
Definition offline : JsError := TypeError "Failed to fetch".






(** The page once the audio [b] of a synthesis answer is playing. *)
Definition playing (b : Blob) (st : State) : State :=
  set_ttsAudio_onended (Some (length (objectURLs st)))
    (set_ttsAudio_plays (S (ttsAudio_plays st))
       (set_ttsAudio_src (Some (length (objectURLs st)))
          (set_objectURLs (objectURLs st ++ [mkURL b false]) st))).

Definition spoken_audio : Blob := mkBlob [Byte.x49; Byte.x44; Byte.x33] "audio/mpeg".

Definition speech_answer : Response := mkResponse 200 None (Some spoken_audio).

(** The listen affordance of the greeting was clicked. *)
Definition awaiting_speech : State := handle (SpeakClick 0) greeted.




(** The conversation of [st'] extends the lines [old]. *)
Definition extends (old : list Element) (st' : State) : Prop :=
  exists new, chatBox st' = (old ++ new)%list.

(** [s] starts with a white-space character. *)
Definition starts_ws (s : string) : bool :=
  match s with
  | EmptyString => false
  | String a s1 =>
      ws1 a
      || match s1 with
         | EmptyString => false
         | String b s2 =>
             ws2 a b
             || match s2 with
                | EmptyString => false
                | String c _ => ws3 a b c
                end
         end
  end.

(** The same test on reversed bytes. *)
Definition starts_ws_rev (s : string) : bool :=
  match s with
  | EmptyString => false
  | String a s1 =>
      ws1 a
      || match s1 with
         | EmptyString => false
         | String b s2 =>
             ws2 b a
             || match s2 with
                | EmptyString => false
                | String c _ => ws3 c b a
                end
         end
  end.

(** [s] ends with a white-space character. *)
Definition ends_ws (s : string) : bool := starts_ws_rev (rev_string s).

Definition valid_mode (m : string) : Prop := m = "mental_health" \/ m = "study_buddy".

(** A message as [sendMessage] posts it: not empty, no white space at
    either end. *)
Definition clean (t : string) : Prop :=
  t <> "" /\ starts_ws t = false /\ ends_ws t = false.

(** The request of a call has the shape its call site gives it. *)
Definition call_ok (c : FetchCall) : Prop :=
  match fc_site c with
  | SiteGreeting =>
      exists m, valid_mode m /\ fc_request c = chat_request greeting_text m
  | SiteChat =>
      exists t m, clean t /\ valid_mode m /\ fc_request c = chat_request t m
  | SiteTranscribe =>
      exists bytes, fc_request c = transcribe_request (mkBlob bytes "audio/webm")
  | SiteSpeak =>
      exists t, fc_request c = speak_request (JStr t)
  end.

Definition well_formed (st : State) : Prop :=
  valid_mode (currentChatMode st) /\ lines_ok st /\ Forall call_ok (fetches st).

(** The tracks of stream [s] are live. *)
Definition live (s : nat) (st : State) : Prop := nth_error (streams st) s = Some true.

(** The recording was stopped by a click; its [stop] event has not fired. *)
Definition stopping : State := handle VoiceClick recording_without_chunks.

(** The button was clicked twice before the permission was settled. *)
Definition asked_twice : State := handle VoiceClick asked_for_microphone.

(** The [u]-th object URL holds [b], is not revoked, and is not the one
    the [ended] handler of the audio element revokes. *)
Definition superseded (u : nat) (b : Blob) (st : State) : Prop :=
  nth_error (objectURLs st) u = Some (mkURL b false) /\ ttsAudio_onended st <> Some u.

(** The listen affordance was clicked twice; the first answer plays. *)
Definition playing_first : State :=
  handle (FetchSettles 1 (FetchResolves speech_answer)) (handle (SpeakClick 0) awaiting_speech).

(** The mode and the two active marks are [m], [a] and [b]. *)
Definition mode_is (m : string) (a b : bool) (st : State) : Prop :=
  currentChatMode st = m /\ mentalHealth_active st = a /\ studyBuddy_active st = b.

(** ** Facts about strings *)

Lemma occurs_app (c : ascii) (s1 s2 : string) :
  occurs c (s1 ++ s2) <-> occurs c s1 \/ occurs c s2.
Proof.
  unfold occurs. induction s1 as [|a s1 IH]; simpl.
  - tauto.
  - rewrite IH. tauto.
Qed.

(** A character of the result comes from the replacement or is a
    character of the input other than the replaced one. *)
Lemma occurs_replaceAllChar (x c : ascii) (r s : string) :
  occurs x (replaceAllChar c r s) -> occurs x r \/ (occurs x s /\ x <> c).
Proof.
  induction s as [|a s IH]; simpl.
  - intros H. destruct H.
  - destruct (Ascii.eqb_spec a c) as [->|Hne].
    + intros H. apply occurs_app in H. destruct H as [H|H]; [now left|].
      destruct (IH H) as [H'|[H' Hx]]; [now left|right].
      split; [right; exact H'|exact Hx].
    + intros [<-|H].
      * right. split; [now left|exact Hne].
      * destruct (IH H) as [H'|[H' Hx]]; [now left|right].
        split; [right; exact H'|exact Hx].
Qed.

Lemma sanitize_no_lt (t : string) : ~ occurs "<" (sanitize t).
Proof.
  unfold sanitize. intros H.
  apply occurs_replaceAllChar in H. destruct H as [H|[H _]].
  - unfold occurs in H. simpl in H. intuition discriminate.
  - apply occurs_replaceAllChar in H. destruct H as [H|[_ H]].
    + unfold occurs in H. simpl in H. intuition discriminate.
    + now apply H.
Qed.

Lemma sanitize_no_gt (t : string) : ~ occurs ">" (sanitize t).
Proof.
  unfold sanitize. intros H.
  apply occurs_replaceAllChar in H. destruct H as [H|[_ H]].
  - unfold occurs in H. simpl in H. intuition discriminate.
  - now apply H.
Qed.

Lemma sanitize_escape_spec (t : string) : sanitize t = escape_spec t.
Proof.
  unfold sanitize. induction t as [|a t IH]; simpl; [reflexivity|].
  destruct (Ascii.eqb_spec a "<") as [->|Hlt].
  - simpl. now rewrite IH.
  - simpl. destruct (Ascii.eqb a ">"); simpl; now rewrite IH.
Qed.

(** ** Facts about lists *)

Lemma nth_error_snoc {A} (l : list A) (x : A) : nth_error (l ++ [x]) (length l) = Some x.
Proof. rewrite nth_error_app2, Nat.sub_diag by lia. reflexivity. Qed.

Lemma update_nth_snoc {A} (l : list A) (x : A) (f : A -> A) :
  update_nth (length l) f (l ++ [x]) = (l ++ [f x])%list.
Proof.
  induction l as [|a l IH]; [reflexivity|].
  change (a :: update_nth (length l) f (l ++ [x]) = a :: (l ++ [f x])%list).
  now rewrite IH.
Qed.

Lemma update_nth_length {A} (n : nat) (f : A -> A) (l : list A) :
  length (update_nth n f l) = length l.
Proof.
  revert n. induction l as [|a l IH]; intros [|n]; try reflexivity.
  change (length (a :: update_nth n f l) = length (a :: l)).
  simpl. now rewrite IH.
Qed.

(** ** The state is determined by its fields *)

Lemma set_uncaught_same (st : State) : set_uncaught (uncaught st) st = st.
Proof. now destruct st. Qed.

(** ** Rendering *)

Lemma displayMessage_string (sender t : string) (canSpeak : bool) (st : State) :
  displayMessage sender (JStr t) canSpeak st
  = (Ok tt,
     set_chatBox
       (chatBox st
        ++ [mkElement ("<strong>" ++ sender ++ ":</strong> " ++ sanitize t)
              (if canSpeak && (sender =? "MindMate")
               then Some (mkIcon speaker_label "pointer" "Listen to response" (JStr t))
               else None)]) st).
Proof. reflexivity. Qed.

(** C2.  For every text [t], the line [displayMessage] appends is the
    label markup followed by the escaped text; the escaped text has no
    [<] and no [>], and it is [t] with each [<] replaced by [&lt;] and
    each [>] by [&gt;]. *)
Theorem C2_displayMessage_escapes_angle_brackets :
  forall (sender t : string) (canSpeak : bool) (st : State),
    (exists icon,
        displayMessage sender (JStr t) canSpeak st
        = (Ok tt,
           set_chatBox
             (chatBox st
              ++ [mkElement ("<strong>" ++ sender ++ ":</strong> " ++ sanitize t) icon]) st))
    /\ ~ occurs "<" (sanitize t)
    /\ ~ occurs ">" (sanitize t)
    /\ sanitize t = escape_spec t.
Proof.
  intros sender t canSpeak st. split; [|split; [|split]].
  - eexists. apply displayMessage_string.
  - apply sanitize_no_lt.
  - apply sanitize_no_gt.
  - apply sanitize_escape_spec.
Qed.

(** ** Sending a message *)

(** C3.  When the input field trims to the empty string, [sendMessage]
    returns at once: the whole state (conversation, input field, mode,
    log of network calls) is what it was, also when the call comes from
    the Enter key. *)
Theorem C3_sendMessage_blank_is_noop :
  forall st : State,
    trim (userInput st) = "" ->
    sendMessage st = (Ok tt, st) /\ handle (KeyPress "Enter") st = st.
Proof.
  intros st H.
  assert (E : sendMessage st = (Ok tt, st)).
  { unfold sendMessage, detached, bind, gets. rewrite H. reflexivity. }
  split; [exact E|].
  unfold handle, run, handler, onkeypress.
  change ("Enter" =? "Enter") with true. cbv iota.
  unfold detached at 1. rewrite E. reflexivity.
Qed.

Lemma C3_witness :
  trim (userInput (set_userInput "  " initial_state)) = ""
  /\ sendMessage (set_userInput "  " initial_state)
     = (Ok tt, set_userInput "  " initial_state)
  /\ handle (KeyPress "Enter") (set_userInput "  " initial_state)
     = set_userInput "  " initial_state.
Proof.
  split; [reflexivity|].
  apply (C3_sendMessage_blank_is_noop (set_userInput "  " initial_state)).
  reflexivity.
Defined.

(** ** Running handlers *)

Lemma run_ok (m : M unit) (st st' : State) : m st = (Ok tt, st') -> run m st = st'.
Proof. intros H. unfold run, detached. now rewrite H. Qed.

Lemma detached_ok (m : M unit) (st st' : State) :
  m st = (Ok tt, st') -> detached m st = (Ok tt, st').
Proof. intros H. unfold detached. now rewrite H. Qed.

Lemma set_chatBox_twice (a b : list Element) (st : State) :
  set_chatBox a (set_chatBox b st) = set_chatBox a st.
Proof. reflexivity. Qed.

(** Settling a pending fetch marks it settled and runs its continuation. *)
Lemma onFetchSettles_pending (id : nat) (o : FetchOutcome) (st : State) (req : Request) (site : Site) :
  nth_error (fetches st) id = Some (pending_call req site) ->
  onFetchSettles id o st
  = resume site o
      (set_fetches (update_nth id (fun c => mkCall (fc_request c) (fc_site c) true) (fetches st)) st).
Proof.
  intros H. unfold onFetchSettles, bind, gets, modify. rewrite H. reflexivity.
Qed.

(** ** Bootstrap *)

Lemma sendInitialGreeting_issues (st : State) :
  sendInitialGreeting st
  = (Ok tt,
     set_fetches
       (fetches st ++ [pending_call (chat_request greeting_text (currentChatMode st)) SiteGreeting])
       st).
Proof. reflexivity. Qed.

(** Whatever the status, a body with a string [response] is rendered as
    the assistant's reply: [sendInitialGreeting] never looks at
    [response.ok]. *)
Lemma sendInitialGreeting_resume_reply (r : Response) (fields : list (string * jsval))
      (reply : string) (st : State) :
  body_json r = Some (JObj fields) ->
  lookup_field "response" fields = Some (JStr reply) ->
  sendInitialGreeting_resume (FetchResolves r) st
  = (Ok tt, set_chatBox (chatBox st ++ [speakable_line reply]) st).
Proof.
  intros Hb Hf.
  unfold sendInitialGreeting_resume, try_catch, bind, await_fetch, ret, response_json.
  rewrite Hb. unfold get_prop, ret, field_of. rewrite Hf. reflexivity.
Qed.

(** C4.  With [initialHistory] undefined or empty, loading the page
    issues one POST to [/chat] with the fixed greeting and the current
    mode and does nothing else; when that call succeeds with a reply,
    the reply is appended as a speakable assistant line and the log of
    network calls still holds that one call only. *)
Theorem C4_bootstrap_without_history :
  forall (h : option (list HistoryEntry)) (st : State) (r : Response)
         (fields : list (string * jsval)) (reply : string),
    h = None \/ h = Some [] ->
    ok r = true ->
    body_json r = Some (JObj fields) ->
    lookup_field "response" fields = Some (JStr reply) ->
    let call := chat_request greeting_text (currentChatMode st) in
    handle (Load h) st = set_fetches (fetches st ++ [pending_call call SiteGreeting]) st
    /\ call = mkRequest "/chat" "POST" json_headers
                (JsonBody (JObj [("message", JStr "Hello MindMate, I'm here.");
                                 ("chat_type", JStr (currentChatMode st))]))
    /\ handle (FetchSettles (length (fetches st)) (FetchResolves r)) (handle (Load h) st)
       = set_chatBox (chatBox st ++ [speakable_line reply])
           (set_fetches (fetches st ++ [settled_call call SiteGreeting]) st).
Proof.
  intros h st r fields reply Hh _ Hb Hf call.
  assert (E : handle (Load h) st
              = set_fetches (fetches st ++ [pending_call call SiteGreeting]) st).
  { apply run_ok. destruct Hh as [-> | ->]; apply sendInitialGreeting_issues. }
  split; [exact E|]. split; [reflexivity|].
  rewrite E. apply run_ok. cbn [handler].
  erewrite onFetchSettles_pending by apply nth_error_snoc.
  cbn [resume]. erewrite sendInitialGreeting_resume_reply by eassumption.
  cbn [fetches set_fetches]. rewrite update_nth_snoc. reflexivity.
Qed.

Lemma C4_witness :
  handle (Load None) initial_state
  = set_fetches [pending_call (chat_request greeting_text "mental_health") SiteGreeting]
      initial_state
  /\ handle (FetchSettles 0 (FetchResolves sample_reply)) (handle (Load None) initial_state)
     = set_chatBox [speakable_line "Hi <there>"]
         (set_fetches [settled_call (chat_request greeting_text "mental_health") SiteGreeting]
            initial_state).
Proof.
  destruct (C4_bootstrap_without_history None initial_state sample_reply
              [("response", JStr "Hi <there>")] "Hi <there>"
              (or_introl eq_refl) eq_refl eq_refl eq_refl) as [H1 [_ H2]].
  split; [exact H1|exact H2].
Defined.

Lemma role_user_not_model (msg : HistoryEntry) :
  (role msg =? "user") = true -> (role msg =? "model") = false.
Proof. intros H. apply String.eqb_eq in H. now rewrite H. Qed.

Lemma render_entry (msg : HistoryEntry) (st : State) :
  displayMessage (if role msg =? "user" then "You" else "MindMate")
                 (JStr (text msg)) (role msg =? "model") st
  = (Ok tt, set_chatBox (chatBox st ++ [entry_line msg]) st).
Proof.
  rewrite displayMessage_string. unfold entry_line.
  destruct (role msg =? "user") eqn:Hu.
  - rewrite (role_user_not_model msg Hu). reflexivity.
  - destruct (role msg =? "model"); reflexivity.
Qed.

Lemma render_history (history : list HistoryEntry) (st : State) :
  forEach (fun msg =>
             displayMessage (if role msg =? "user" then "You" else "MindMate")
                            (JStr (text msg)) (role msg =? "model"))
          history st
  = (Ok tt, set_chatBox (chatBox st ++ map entry_line history) st).
Proof.
  revert st. induction history as [|msg rest IH]; intros st.
  - simpl. rewrite app_nil_r. now destruct st.
  - cbn [forEach]. unfold bind at 1. rewrite render_entry, IH.
    cbn [chatBox set_chatBox map]. rewrite set_chatBox_twice, <- app_assoc. reflexivity.
Qed.

(** C5.  With a non-empty [initialHistory], loading the page appends
    one line per entry, in order, and changes nothing else (no network
    call): an entry of role [user] is a line labelled [You] without the
    listen affordance, an entry of role [model] a line labelled
    [MindMate] with it, and any other entry a line labelled [MindMate]. *)
Theorem C5_bootstrap_renders_history :
  forall (history : list HistoryEntry) (st : State),
    history <> [] ->
    handle (Load (Some history)) st
    = set_chatBox (chatBox st ++ map entry_line history) st
    /\ fetches (handle (Load (Some history)) st) = fetches st
    /\ length (chatBox (handle (Load (Some history)) st))
       = length (chatBox st) + length history
    /\ (forall msg, In msg history ->
          (role msg = "user" ->
             entry_line msg = plain_line "You" (text msg) /\ speakable (entry_line msg) = false)
          /\ (role msg = "model" ->
                entry_line msg = speakable_line (text msg) /\ speakable (entry_line msg) = true)
          /\ (role msg <> "user" ->
                exists icon,
                  entry_line msg
                  = mkElement ("<strong>MindMate:</strong> " ++ sanitize (text msg)) icon)).
Proof.
  intros history st Hne.
  assert (E : handle (Load (Some history)) st
              = set_chatBox (chatBox st ++ map entry_line history) st).
  { apply run_ok. destruct history as [|msg rest]; [congruence|].
    exact (render_history (msg :: rest) st). }
  split; [exact E|]. rewrite E. split; [reflexivity|]. split.
  - cbn [chatBox set_chatBox]. now rewrite length_app, length_map.
  - intros msg _. unfold entry_line. split; [|split].
    + intros ->. split; reflexivity.
    + intros ->. split; reflexivity.
    + intros Hu. apply String.eqb_neq in Hu. rewrite Hu.
      destruct (role msg =? "model"); eexists; reflexivity.
Qed.

Lemma C5_witness :
  handle (Load (Some sample_history)) initial_state
  = set_chatBox [plain_line "You" "hi"; speakable_line "hello"] initial_state
  /\ fetches (handle (Load (Some sample_history)) initial_state) = [].
Proof.
  destruct (C5_bootstrap_renders_history sample_history initial_state
              ltac:(discriminate)) as [H1 [H2 _]].
  split; [exact H1|exact H2].
Defined.

(** ** Mode switching *)

(** C6.  A click on a mode button whose mode is already the current one
    leaves the state as it is; otherwise it empties the conversation,
    sets the mode, renders the one announcement of the new mode and
    issues one greeting call carrying the new mode. *)
Theorem C6_mode_buttons :
  forall st : State,
    handle MentalHealthClick st
    = (if currentChatMode st =? "mental_health" then st
       else switched "mental_health" mental_health_announcement st)
    /\ handle StudyBuddyClick st
       = (if currentChatMode st =? "study_buddy" then st
          else switched "study_buddy" study_buddy_announcement st)
    /\ (forall mode announcement,
          chatBox (switched mode announcement st)
          = [mkElement ("<strong>System:</strong> " ++ announcement) None]
          /\ currentChatMode (switched mode announcement st) = mode
          /\ fetches (switched mode announcement st)
             = (fetches st
                ++ [pending_call
                      (mkRequest "/chat" "POST" json_headers
                         (JsonBody (JObj [("message", JStr greeting_text);
                                          ("chat_type", JStr mode)])))
                      SiteGreeting])%list).
Proof.
  intros st. split; [|split].
  - unfold handle, run, handler, onMentalHealthClick, onModeClick, detached, bind, gets.
    destruct (currentChatMode st =? "mental_health"); [reflexivity|].
    destruct st; reflexivity.
  - unfold handle, run, handler, onStudyBuddyClick, onModeClick, detached, bind, gets.
    destruct (currentChatMode st =? "study_buddy"); [reflexivity|].
    destruct st; reflexivity.
  - intros mode announcement. repeat split.
Qed.

(** ** Failure of a chat turn *)

Lemma sendMessage_resume_not_ok (r : Response) (st : State) :
  ok r = false ->
  sendMessage_resume (FetchResolves r) st
  = (Ok tt,
     set_chatBox (chatBox st ++ [plain_line "MindMate" chat_failure])
       (set_console (console st ++ [("Error sending message:", status_error r)]) st)).
Proof.
  intros H.
  unfold sendMessage_resume, try_catch, bind, await_fetch, ret. rewrite H. reflexivity.
Qed.

(** C7.  When the answer to a [sendMessage] call arrives with a status
    outside 200..299, the continuation appends the fixed failure line of
    the assistant and nothing else to the conversation, leaves one
    console trace, and ends normally: no error is left uncaught. *)
Theorem C7_sendMessage_non_2xx :
  forall (st : State) (id : nat) (req : Request) (r : Response),
    nth_error (fetches st) id = Some (pending_call req SiteChat) ->
    ok r = false ->
    let st' := handle (FetchSettles id (FetchResolves r)) st in
    chatBox st'
    = (chatBox st
       ++ [mkElement
             "<strong>MindMate:</strong> Sorry, I'm having trouble responding right now. Please try again."
             None])%list
    /\ uncaught st' = uncaught st
    /\ length (fetches st') = length (fetches st)
    /\ console st' = (console st ++ [("Error sending message:", status_error r)])%list.
Proof.
  intros st id req r Hp Hok st'.
  assert (E : st' = set_chatBox (chatBox st ++ [plain_line "MindMate" chat_failure])
                      (set_console (console st ++ [("Error sending message:", status_error r)])
                         (set_fetches
                            (update_nth id (fun c => mkCall (fc_request c) (fc_site c) true)
                                        (fetches st)) st))).
  { apply run_ok. cbn [handler].
    erewrite onFetchSettles_pending by exact Hp. cbn [resume].
    now rewrite sendMessage_resume_not_ok. }
  rewrite E. cbn. rewrite update_nth_length. repeat split.
Qed.

Lemma C7_witness :
  chatBox (handle (FetchSettles 0 (FetchResolves server_error)) awaiting_chat)
  = [plain_line "You" "hi"; plain_line "MindMate" chat_failure]
  /\ uncaught (handle (FetchSettles 0 (FetchResolves server_error)) awaiting_chat) = [].
Proof.
  destruct (C7_sendMessage_non_2xx awaiting_chat 0 (chat_request "hi" "mental_health")
              server_error eq_refl eq_refl) as [H1 [H2 _]].
  split; [exact H1|exact H2].
Defined.

(** ** Recording *)

Lemma nth_error_update_nth {A} (n m : nat) (f : A -> A) (l : list A) :
  nth_error (update_nth n f l) m
  = if Nat.eqb m n then option_map f (nth_error l n) else nth_error l m.
Proof.
  revert n m. induction l as [|a l IH]; intros [|n] [|m]; try reflexivity.
  { cbn. now destruct (Nat.eqb m n). }
  change (nth_error (update_nth n f l) m
          = if Nat.eqb m n then option_map f (nth_error l n) else nth_error l m).
  apply IH.
Qed.

Lemma onstop_no_chunks (stream : nat) (st : State) :
  audioChunks st = [] ->
  onstop stream st
  = (Ok tt,
     set_fetches (fetches st ++ [pending_call (transcribe_request empty_clip) SiteTranscribe])
       (set_streams (update_nth stream (fun _ => false) (streams st)) st)).
Proof.
  intros H. unfold onstop, bind, modify, gets, fetch. cbn [audioChunks set_streams].
  rewrite H. reflexivity.
Qed.

Lemma onRecorderStops_fires (rid : nat) (r : Recorder) (st : State) :
  nth_error (recorders st) rid = Some r ->
  is_recording r || rec_stop_queued r = true ->
  onRecorderStops rid st
  = detached (onstop (rec_stream r))
      (set_recorders
         (update_nth rid (fun r => mkRecorder (rec_stream r) Inactive false) (recorders st)) st).
Proof.
  intros H1 H2. unfold onRecorderStops, bind, gets, modify. rewrite H1, H2. reflexivity.
Qed.

(** C8.  Stopping a recording while [audioChunks] is empty: the click
    stops the recorder and resets the button without a network call,
    and the recorder's [stop] event then builds a clip of zero bytes and
    posts it, once, to [/speech_to_text]. *)
Theorem C8_stop_without_chunks_still_submits :
  forall (st : State) (rid : nat) (r : Recorder),
    voiceBtn_recording st = true ->
    mediaRecorder st = Some rid ->
    nth_error (recorders st) rid = Some r ->
    is_recording r = true ->
    audioChunks st = [] ->
    let st1 := handle VoiceClick st in
    let st2 := handle (RecorderStops rid) st1 in
    voiceBtn_recording st1 = false
    /\ fetches st1 = fetches st
    /\ fetches st2
       = (fetches st
          ++ [pending_call
                (mkRequest "/speech_to_text" "POST" []
                   (FormBody [mkPart "audio" (mkBlob [] "audio/webm") "audio.webm"]))
                SiteTranscribe])%list
    /\ uncaught st2 = uncaught st.
Proof.
  intros st rid r Hflag Hmr Hr Hrec Hchunks st1 st2.
  assert (E1 : st1 = set_voiceBtn_text mic_label
                       (set_voiceBtn_recording false
                          (set_recorders
                             (update_nth rid (fun r => mkRecorder (rec_stream r) Inactive true)
                                         (recorders st)) st))).
  { apply run_ok. cbn [handler]. unfold onVoiceClick, bind, gets.
    rewrite Hflag, Hmr, Hr, Hrec. reflexivity. }
  assert (Hq : nth_error (recorders st1) rid = Some (mkRecorder (rec_stream r) Inactive true)).
  { rewrite E1. cbn [recorders set_voiceBtn_text set_voiceBtn_recording set_recorders].
    rewrite nth_error_update_nth, Nat.eqb_refl, Hr. reflexivity. }
  assert (E2 : st2
               = set_fetches
                   (fetches st1 ++ [pending_call (transcribe_request empty_clip) SiteTranscribe])
                   (set_streams
                      (update_nth (rec_stream r) (fun _ => false) (streams st1))
                      (set_recorders
                         (update_nth rid (fun r => mkRecorder (rec_stream r) Inactive false)
                                     (recorders st1)) st1))).
  { apply run_ok. cbn [handler].
    rewrite (onRecorderStops_fires rid _ st1 Hq eq_refl).
    apply detached_ok. cbn [rec_stream]. rewrite onstop_no_chunks; [reflexivity|].
    cbn [audioChunks set_recorders]. rewrite E1. exact Hchunks. }
  rewrite E2, E1. repeat split.
Qed.

Lemma C8_witness :
  fetches (handle (RecorderStops 0) (handle VoiceClick recording_without_chunks))
  = [pending_call (transcribe_request empty_clip) SiteTranscribe].
Proof.
  destruct (C8_stop_without_chunks_still_submits recording_without_chunks 0
              (mkRecorder 0 Recording false) eq_refl eq_refl eq_refl eq_refl eq_refl)
    as [_ [_ [H _]]].
  exact H.
Defined.

(** ** Properties kept by every handler *)

Section Preservation.

Variable P : State -> Prop.
Hypothesis P_uncaught : forall st v, P st -> P (set_uncaught v st).

Lemma preserves_ret {A} (a : A) : preserves P (ret a).
Proof. intros st H. exact H. Qed.

Lemma preserves_throw {A} (e : JsError) : preserves P (@throw A e).
Proof. intros st H. exact H. Qed.

Lemma preserves_gets {A} (f : State -> A) : preserves P (gets f).
Proof. intros st H. exact H. Qed.

Lemma preserves_modify (f : State -> State) :
  (forall st, P st -> P (f st)) -> preserves P (modify f).
Proof. intros Hf st H. apply Hf, H. Qed.

Lemma preserves_bind {A B} (m : M A) (k : A -> M B) :
  preserves P m -> (forall a, preserves P (k a)) -> preserves P (bind m k).
Proof.
  intros Hm Hk st H. unfold bind. specialize (Hm st H).
  destruct (m st) as [[a|e] st']; simpl in *.
  - apply Hk, Hm.
  - exact Hm.
Qed.

Lemma preserves_try_catch {A} (body : M A) (handler : JsError -> M A) :
  preserves P body -> (forall e, preserves P (handler e)) ->
  preserves P (try_catch body handler).
Proof.
  intros Hb Hh st H. unfold try_catch. specialize (Hb st H).
  destruct (body st) as [[a|e] st']; simpl in *.
  - exact Hb.
  - apply Hh, Hb.
Qed.

Lemma preserves_detached (m : M unit) : preserves P m -> preserves P (detached m).
Proof.
  intros Hm st H. unfold detached. specialize (Hm st H).
  destruct (m st) as [[a|e] st']; simpl in *.
  - exact Hm.
  - apply P_uncaught, Hm.
Qed.

Lemma preserves_forEach {A} (f : A -> M unit) (l : list A) :
  (forall x, preserves P (f x)) -> preserves P (forEach f l).
Proof.
  intros Hf. induction l as [|x rest IH]; cbn [forEach].
  - apply preserves_ret.
  - apply preserves_bind; [apply Hf|intros _; exact IH].
Qed.

Lemma preserves_run (m : M unit) (st : State) : preserves P m -> P st -> P (run m st).
Proof. intros Hm H. unfold run. now apply preserves_detached. Qed.

End Preservation.

Create HintDb script discriminated.
#[local] Hint Unfold handler onload sendInitialGreeting sendInitialGreeting_resume
  sendMessage sendMessage_resume onkeypress onVoiceClick onVoiceClick_resume
  ondataavailable onstop onstop_resume speakText speakText_resume onended onSpeakClick
  switchMode onModeClick onMentalHealthClick onStudyBuddyClick resume onFetchSettles
  onMicSettles onDataAvailable onRecorderStops
  console_error fetch await_fetch response_json response_blob get_prop getUserMedia recorder_stop
  await_mic new_MediaRecorder recorder_start sanitized : script.

(** Walks through a handler: [prim] closes the primitives that need an
    argument of their own, [side] the goals left by [modify] and by
    [detached]. *)
Ltac preserve prim side :=
  repeat first
    [ progress intros
    | prim
    | apply preserves_ret
    | apply preserves_throw
    | apply preserves_gets
    | apply preserves_bind
    | apply preserves_try_catch
    | apply preserves_forEach
    | apply preserves_detached; [solve [side]|]
    | apply preserves_modify; solve [side]
    | match goal with
      | |- preserves _ (match ?x with _ => _ end) => destruct x
      end
    | progress autounfold with script ].

(** ** The listen affordance *)

Lemma displayMessage_lines_ok (sender : string) (v : jsval) (canSpeak : bool) :
  preserves lines_ok (displayMessage sender v canSpeak).
Proof.
  intros st H. destruct v; try exact H.
  rewrite displayMessage_string. unfold lines_ok. cbn [snd chatBox set_chatBox].
  apply Forall_app. split; [exact H|]. constructor; [|constructor].
  unfold line_ok. cbn [speakIcon].
  destruct canSpeak; [|exact I]. cbn [andb].
  destruct (String.eqb_spec sender "MindMate") as [->|_]; [|exact I].
  exists s. reflexivity.
Qed.

Lemma handler_lines_ok (e : Event) : preserves lines_ok (handler e).
Proof.
  destruct e;
    preserve ltac:(apply displayMessage_lines_ok)
             ltac:(first [exact (fun _ _ H => H) | intros; assumption | intros; constructor]).
Qed.

Lemma reachable_lines_ok (st : State) : reachable st -> lines_ok st.
Proof.
  induction 1 as [|e st _ IH].
  - constructor.
  - unfold handle.
    apply (preserves_run lines_ok (fun _ _ H => H) _ _ (handler_lines_ok e) IH).
Qed.

Lemma sendMessage_resume_reply (r : Response) (fields : list (string * jsval))
      (reply : string) (st : State) :
  ok r = true ->
  body_json r = Some (JObj fields) ->
  lookup_field "response" fields = Some (JStr reply) ->
  sendMessage_resume (FetchResolves r) st
  = (Ok tt, set_chatBox (chatBox st ++ [speakable_line reply]) st).
Proof.
  intros Hok Hb Hf.
  unfold sendMessage_resume, try_catch, bind, await_fetch, ret, response_json.
  rewrite Hok. cbn [negb]. rewrite Hb. unfold get_prop, ret, field_of. rewrite Hf. reflexivity.
Qed.

(** C10.  Rendering a speakable assistant message [t] stores [t] itself
    in the listen affordance, next to the escaped markup; and in every
    reachable state, a click on the affordance of a line posts to
    [/text_to_speech] the text [t] that line was rendered from, not its
    escaped form. *)
Theorem C10_listen_posts_original_text :
  (forall (t : string) (st : State),
      displayMessage "MindMate" (JStr t) true st
      = (Ok tt, set_chatBox (chatBox st ++ [speakable_line t]) st))
  /\ (forall (st : State) (i : nat) (el : Element) (icon : SpeakIcon),
         reachable st ->
         nth_error (chatBox st) i = Some el ->
         speakIcon el = Some icon ->
         exists t,
           innerHTML el = "<strong>MindMate:</strong> " ++ sanitize t
           /\ icon_onclick icon = JStr t
           /\ handle (SpeakClick i) st
              = set_fetches
                  (fetches st
                   ++ [pending_call
                         (mkRequest "/text_to_speech" "POST" json_headers
                            (JsonBody (JObj [("text", JStr t)])))
                         SiteSpeak]) st).
Proof.
  split; [reflexivity|].
  intros st i el icon Hr Hi Hs.
  pose proof (reachable_lines_ok st Hr) as Hl. unfold lines_ok in Hl.
  rewrite Forall_forall in Hl. specialize (Hl el (nth_error_In _ _ Hi)).
  unfold line_ok in Hl. rewrite Hs in Hl. destruct Hl as [t ->].
  exists t. cbn in Hs. injection Hs as <-.
  split; [reflexivity|]. split; [reflexivity|].
  apply run_ok. cbn [handler]. unfold onSpeakClick, bind, gets. rewrite Hi. reflexivity.
Qed.

Lemma C10_witness :
  exists t,
    innerHTML (speakable_line "Hi <there>") = "<strong>MindMate:</strong> " ++ sanitize t
    /\ JStr "Hi <there>" = JStr t
    /\ handle (SpeakClick 0) greeted
       = set_fetches
           (fetches greeted
            ++ [pending_call
                  (mkRequest "/text_to_speech" "POST" json_headers
                     (JsonBody (JObj [("text", JStr t)])))
                  SiteSpeak]) greeted.
Proof.
  exact (proj2 C10_listen_posts_original_text greeted 0 (speakable_line "Hi <there>")
           (mkIcon speaker_label "pointer" "Listen to response" (JStr "Hi <there>"))
           (reach_step _ _ (reach_step _ _ reach_init)) eq_refl eq_refl).
Defined.

(** ** The recording state machine *)

Lemma onVoiceClick_resume_rejected (e : JsError) (st : State) :
  onVoiceClick_resume (MicRejects e) st = (Ok tt, mic_failed e st).
Proof. reflexivity. Qed.

Lemma onVoiceClick_resume_no_recorder (e : JsError) (st : State) :
  onVoiceClick_resume (MicGrants (ConstructorThrows e)) st
  = (Ok tt, mic_failed e (set_streams (streams st ++ [true]) st)).
Proof. reflexivity. Qed.

Lemma onVoiceClick_resume_no_start (e : JsError) (st : State) :
  onVoiceClick_resume (MicGrants (StartThrows e)) st
  = (Ok tt,
     mic_failed e
       (set_audioChunks []
          (set_mediaRecorder (Some (length (recorders st)))
             (set_recorders (recorders st ++ [mkRecorder (length (streams st)) Inactive false])
                (set_streams (streams st ++ [true]) st))))).
Proof. reflexivity. Qed.

Lemma onVoiceClick_resume_started (st : State) :
  onVoiceClick_resume (MicGrants NoFault) st
  = (Ok tt,
     set_recorders (recorders st ++ [mkRecorder (length (streams st)) Recording false])
       (set_audioChunks []
          (set_mediaRecorder (Some (length (recorders st)))
             (set_voiceBtn_text rec_label
                (set_voiceBtn_recording true
                   (set_streams (streams st ++ [true]) st)))))).
Proof.
  unfold onVoiceClick_resume, try_catch, bind, await_mic, gets, modify, ret,
    new_MediaRecorder, recorder_start.
  cbn -[update_nth]. rewrite update_nth_snoc. reflexivity.
Qed.

Lemma onMicSettles_pending (id : nat) (o : MicOutcome) (st : State) :
  nth_error (micRequests st) id = Some false ->
  onMicSettles id o st
  = onVoiceClick_resume o
      (set_micRequests (update_nth id (fun _ => true) (micRequests st)) st).
Proof. intros H. unfold onMicSettles, bind, gets, modify. rewrite H. reflexivity. Qed.

Lemma onMicSettles_stale (id : nat) (o : MicOutcome) (st : State) :
  nth_error (micRequests st) id <> Some false ->
  onMicSettles id o st = (Ok tt, st).
Proof.
  intros H. unfold onMicSettles, bind, gets.
  destruct (nth_error (micRequests st) id) as [[|]|]; try reflexivity.
  now contradiction H.
Qed.

Lemma event_cases (e : Event) (st : State) :
  starts_recording e st
  \/ handle e st = st
  \/ (forall id, e <> MicSettles id (MicGrants NoFault)).
Proof.
  destruct e as [| | | |id o| | | | | | |]; try (right; right; discriminate).
  destruct o as [err|[|err|err]]; try (right; right; discriminate).
  destruct (nth_error (micRequests st) id) as [[|]|] eqn:E.
  - right; left. apply run_ok. cbn [handler]. apply onMicSettles_stale. congruence.
  - left. exists id. split; [reflexivity|exact E].
  - right; left. apply run_ok. cbn [handler]. apply onMicSettles_stale. congruence.
Qed.

Lemma onVoiceClick_resume_idle (o : MicOutcome) :
  o <> MicGrants NoFault -> preserves idle (onVoiceClick_resume o).
Proof.
  intros Ho st _. destruct o as [err|[|err|err]]; [reflexivity|now contradiction Ho| |];
    reflexivity.
Qed.

Lemma handler_keeps_idle (e : Event) :
  (forall id, e <> MicSettles id (MicGrants NoFault)) -> preserves idle (handler e).
Proof.
  intros He.
  destruct e as [| | | |id o| | | | | | |];
    preserve ltac:(apply onVoiceClick_resume_idle; intros ->; now apply (He id))
             ltac:(first [exact (fun _ _ H => H) | intros; assumption | intros; reflexivity]).
Qed.

Lemma recording_within_update (S : nat -> Prop) (n : nat) (f : Recorder -> Recorder) (st : State) :
  (forall r, is_recording (f r) = false) ->
  recording_within S st ->
  recording_within S (set_recorders (update_nth n f (recorders st)) st).
Proof.
  intros Hf H rid r. cbn [recorders set_recorders]. rewrite nth_error_update_nth.
  destruct (Nat.eqb rid n).
  - destruct (nth_error (recorders st) n); cbn; [|discriminate].
    intros [= <-]. rewrite Hf. discriminate.
  - apply H.
Qed.

Lemma recording_within_new (S : nat -> Prop) (x : Recorder) (st : State) :
  is_recording x = false ->
  recording_within S st ->
  recording_within S (set_recorders (recorders st ++ [x]) st).
Proof.
  intros Hx H rid r. cbn [recorders set_recorders]. intros Hn Hr.
  destruct (Nat.lt_ge_cases rid (length (recorders st))) as [Hlt|Hge].
  - rewrite nth_error_app1 in Hn by exact Hlt. now apply (H rid r).
  - rewrite nth_error_app2 in Hn by exact Hge.
    destruct (rid - length (recorders st)) as [|k]; cbn in Hn.
    + injection Hn as <-. congruence.
    + destruct k; discriminate.
Qed.

Lemma onVoiceClick_resume_recorders (S : nat -> Prop) (o : MicOutcome) :
  o <> MicGrants NoFault -> preserves (recording_within S) (onVoiceClick_resume o).
Proof.
  intros Ho st H. destruct o as [err|[|err|err]].
  - exact H.
  - now contradiction Ho.
  - exact H.
  - rewrite onVoiceClick_resume_no_start. cbn [snd].
    exact (recording_within_new S (mkRecorder (length (streams st)) Inactive false)
             (set_streams (streams st ++ [true]) st) eq_refl H).
Qed.

Lemma handler_keeps_recorders (S : nat -> Prop) (e : Event) :
  (forall id, e <> MicSettles id (MicGrants NoFault)) ->
  preserves (recording_within S) (handler e).
Proof.
  intros He.
  destruct e as [| | | |id o| | | | | | |];
    preserve ltac:(apply onVoiceClick_resume_recorders; intros ->; now apply (He id))
             ltac:(first [ exact (fun _ _ H => H)
                         | intros; assumption
                         | intros; apply recording_within_update;
                           [intros; reflexivity|assumption] ]).
Qed.

Lemma mic_message_cases (name : string) :
  (name = "NotAllowedError" \/ name = "PermissionDeniedError" -> mic_message name = mic_denied)
  /\ (name = "NotFoundError" \/ name = "DevicesNotFoundError" -> mic_message name = mic_missing)
  /\ (name <> "NotAllowedError" -> name <> "PermissionDeniedError" ->
      name <> "NotFoundError" -> name <> "DevicesNotFoundError" ->
      mic_message name = mic_other).
Proof.
  split; [|split].
  - intros [-> | ->]; reflexivity.
  - intros [-> | ->]; reflexivity.
  - intros H1 H2 H3 H4. unfold mic_message.
    apply String.eqb_neq in H1, H2, H3, H4. now rewrite H1, H2, H3, H4.
Qed.

(** C9.  For every event and every state: the button turns to
    recording, and a recorder turns to recording, only when the event
    grants a pending microphone request and the recorder starts; and
    when the event rejects a pending microphone request, the button is
    reset to idle, no recorder is created or started, nothing is left
    uncaught, and one System line is appended whose text is chosen by
    the name of the error (denied, no device, other). *)
Theorem C9_recording_only_after_grant :
  forall (e : Event) (st : State),
    (idle st -> voiceBtn_recording (handle e st) = true -> starts_recording e st)
    /\ (forall rid r',
          nth_error (recorders (handle e st)) rid = Some r' ->
          is_recording r' = true ->
          starts_recording e st
          \/ exists r, nth_error (recorders st) rid = Some r /\ is_recording r = true)
    /\ (forall id err,
          e = MicSettles id (MicRejects err) ->
          nth_error (micRequests st) id = Some false ->
          idle (handle e st)
          /\ voiceBtn_text (handle e st) = mic_label
          /\ recorders (handle e st) = recorders st
          /\ uncaught (handle e st) = uncaught st
          /\ chatBox (handle e st)
             = (chatBox st
                ++ [mkElement ("<strong>System:</strong> "
                               ++ sanitize (mic_message (err_name err))) None])%list
          /\ (err_name err = "NotAllowedError" \/ err_name err = "PermissionDeniedError" ->
              mic_message (err_name err) = mic_denied)
          /\ (err_name err = "NotFoundError" \/ err_name err = "DevicesNotFoundError" ->
              mic_message (err_name err) = mic_missing)).
Proof.
  intros e st. split; [|split].
  - intros Hidle Hrec.
    destruct (event_cases e st) as [Hs|[Hsame|Hne]]; [exact Hs| |].
    + rewrite Hsame in Hrec. unfold idle in Hidle. congruence.
    + pose proof (preserves_run idle (fun _ _ H => H) _ st (handler_keeps_idle e Hne) Hidle)
        as H.
      unfold idle in H. unfold handle in Hrec. congruence.
  - intros rid r' Hn Hr.
    destruct (event_cases e st) as [Hs|[Hsame|Hne]]; [left; exact Hs| |]; right.
    + rewrite Hsame in Hn. now exists r'.
    + set (S := fun rid => exists r, nth_error (recorders st) rid = Some r
                                     /\ is_recording r = true).
      assert (H0 : recording_within S st) by (intros i r H1 H2; now exists r).
      exact (preserves_run (recording_within S) (fun _ _ H => H) _ st
               (handler_keeps_recorders S e Hne) H0 rid r' Hn Hr).
  - intros id err -> Hp.
    assert (E : handle (MicSettles id (MicRejects err)) st
                = mic_failed err
                    (set_micRequests (update_nth id (fun _ => true) (micRequests st)) st)).
    { apply run_ok. cbn [handler]. rewrite (onMicSettles_pending id _ st Hp).
      apply onVoiceClick_resume_rejected. }
    rewrite E. repeat split; apply mic_message_cases.
Qed.

Lemma C9_witness :
  idle (handle (MicSettles 0 (MicRejects permission_denied)) asked_for_microphone)
  /\ chatBox (handle (MicSettles 0 (MicRejects permission_denied)) asked_for_microphone)
     = (chatBox asked_for_microphone
        ++ [mkElement ("<strong>System:</strong> "
                       ++ sanitize (mic_message (err_name permission_denied))) None])%list
  /\ mic_message (err_name permission_denied) = mic_denied
  /\ starts_recording (MicSettles 0 (MicGrants NoFault)) asked_for_microphone.
Proof.
  pose proof (C9_recording_only_after_grant
                (MicSettles 0 (MicRejects permission_denied)) asked_for_microphone)
    as [_ [_ H]].
  destruct (H 0 permission_denied eq_refl eq_refl) as [H1 [_ [_ [_ [H2 [H3 _]]]]]].
  split; [exact H1|]. split; [exact H2|]. split; [exact (H3 (or_introl eq_refl))|].
  exact (proj1 (C9_recording_only_after_grant
                  (MicSettles 0 (MicGrants NoFault)) asked_for_microphone)
               eq_refl eq_refl).
Defined.

(** ** How failures are reported *)

(** A rejected fetch is caught at each of the four call sites and
    rendered as one line. *)
Lemma rejected_fetch_is_reported (site : Site) (e : JsError) (st : State) :
  resume site (FetchRejects e) st
  = (Ok tt,
     set_chatBox (chatBox st ++ [failure_line site])
       (set_console (console st ++ [(failure_label site, e)]) st)).
Proof. destruct site; reflexivity. Qed.

(** The greeting continuation renders one line whatever the response:
    the reply when the body carries one, the fixed apology otherwise.
    The status plays no part. *)
Lemma sendInitialGreeting_resume_cases (r : Response) (st : State) :
  match reply_of r with
  | Some s =>
      sendInitialGreeting_resume (FetchResolves r) st
      = (Ok tt, set_chatBox (chatBox st ++ [speakable_line s]) st)
  | None =>
      exists trace,
        sendInitialGreeting_resume (FetchResolves r) st
        = (Ok tt,
           set_chatBox (chatBox st ++ [failure_line SiteGreeting])
             (set_console (console st ++ [(failure_label SiteGreeting, trace)]) st))
  end.
Proof.
  unfold reply_of, sendInitialGreeting_resume, try_catch, bind, await_fetch, ret,
    response_json.
  destruct (body_json r) as [[| |b|z|s|l|fields]|]; try (eexists; cbn; reflexivity).
  unfold get_prop, ret, field_of.
  destruct (lookup_field "response" fields) as [[| |b|z|s|l|fs]|];
    try (eexists; cbn; reflexivity).
Qed.

(** [speakText] tests the status: an answer outside 200..299 always
    ends in one System line. *)
Lemma speakText_resume_not_ok (r : Response) (st : State) :
  ok r = false ->
  exists message,
    fst (speakText_resume (FetchResolves r) st) = Ok tt
    /\ chatBox (snd (speakText_resume (FetchResolves r) st))
       = (chatBox st ++ [plain_line "System" message])%list.
Proof.
  intros H.
  unfold speakText_resume, try_catch, bind, await_fetch, ret, response_json.
  rewrite H.
  destruct (body_json r) as [[| |b|z|s|l|fields]|];
    [ exists speak_failure | exists speak_failure
    | exists "Text-to-Speech Error: undefined" | exists "Text-to-Speech Error: undefined"
    | exists "Text-to-Speech Error: undefined" | exists "Text-to-Speech Error: undefined"
    | exists ("Text-to-Speech Error: " ++ js_toString (field_of fields "error"))
    | exists speak_failure ];
    split; reflexivity.
Qed.

(** The transcription continuation renders nothing, whatever the
    status, when the body is an object with no truthy [text] and no
    truthy [error]. *)
Lemma onstop_resume_silent (r : Response) (fields : list (string * jsval)) (st : State) :
  body_json r = Some (JObj fields) ->
  truthy (field_of fields "text") = false ->
  truthy (field_of fields "error") = false ->
  onstop_resume (FetchResolves r) st = (Ok tt, st).
Proof.
  intros Hb Ht He.
  unfold onstop_resume, try_catch, bind, await_fetch, ret, response_json.
  rewrite Hb. unfold get_prop, ret. rewrite Ht, He. reflexivity.
Qed.

(** C1.  Two responses with status 500 that are not reported as
    failures.  The answer to the bootstrap greeting, with a body that
    carries a [response] string, is rendered as an ordinary speakable
    reply, with no failure line and no console trace; the answer to the
    transcription request, with a body that has neither [text] nor
    [error], renders nothing at all.  [sendMessage], on the same
    status, renders its failure line. *)
Theorem C1_status_not_checked_at_two_sites :
  ok error_with_reply = false
  /\ chatBox (handle (FetchSettles 0 (FetchResolves error_with_reply))
                     (handle (Load None) initial_state))
     = [speakable_line "Internal Server Error"]
  /\ console (handle (FetchSettles 0 (FetchResolves error_with_reply))
                     (handle (Load None) initial_state)) = []
  /\ ok error_without_fields = false
  /\ chatBox (handle (FetchSettles 0 (FetchResolves error_without_fields))
                     awaiting_transcript) = []
  /\ console (handle (FetchSettles 0 (FetchResolves error_without_fields))
                     awaiting_transcript) = []
  /\ chatBox (handle (FetchSettles 0 (FetchResolves error_with_reply)) awaiting_chat)
     = [plain_line "You" "hi"; plain_line "MindMate" chat_failure].
Proof. repeat split. Qed.

(** * Further properties of the script *)

(** ** A chat turn *)

Lemma requests_settle (id : nat) (st : State) : requests (settle id st) = requests st.
Proof.
  unfold requests, settle. cbn [fetches set_fetches].
  generalize (fetches st). intros l. revert id.
  induction l as [|c l IH]; intros [|id]; try reflexivity.
  change (fc_request c
            :: map fc_request
                 (update_nth id (fun c => mkCall (fc_request c) (fc_site c) true) l)
          = fc_request c :: map fc_request l).
  now rewrite IH.
Qed.

Lemma handle_settles (id : nat) (o : FetchOutcome) (st st' : State)
      (req : Request) (site : Site) :
  nth_error (fetches st) id = Some (pending_call req site) ->
  resume site o (settle id st) = (Ok tt, st') ->
  handle (FetchSettles id o) st = st'.
Proof.
  intros Hp Hr. apply run_ok. cbn [handler].
  rewrite (onFetchSettles_pending id o st req site Hp). exact Hr.
Qed.

(** X1.  With an input that does not trim to the empty string, Enter
    renders the trimmed text as a line of the user without the listen
    affordance, empties the input field and issues one POST to [/chat]
    carrying the trimmed text and the current mode. *)
Theorem X1_sendMessage_sends_trimmed_text :
  forall st : State,
    trim (userInput st) <> "" ->
    handle (KeyPress "Enter") st
    = set_fetches
        (fetches st
         ++ [pending_call (chat_request (trim (userInput st)) (currentChatMode st)) SiteChat])
        (set_userInput ""
           (set_chatBox (chatBox st ++ [plain_line "You" (trim (userInput st))]) st)).
Proof.
  intros st H. apply run_ok. cbn [handler]. unfold onkeypress.
  change ("Enter" =? "Enter") with true. cbv iota.
  unfold sendMessage, detached, bind, gets.
  apply String.eqb_neq in H. rewrite H. reflexivity.
Qed.

Lemma X1_witness :
  handle (KeyPress "Enter") (set_userInput " hi " initial_state)
  = set_fetches
      (fetches (set_userInput " hi " initial_state)
       ++ [pending_call
             (chat_request (trim (userInput (set_userInput " hi " initial_state)))
                (currentChatMode (set_userInput " hi " initial_state))) SiteChat])
      (set_userInput ""
         (set_chatBox
            (chatBox (set_userInput " hi " initial_state)
             ++ [plain_line "You" (trim (userInput (set_userInput " hi " initial_state)))])
            (set_userInput " hi " initial_state))).
Proof.
  apply (X1_sendMessage_sends_trimmed_text (set_userInput " hi " initial_state)).
  discriminate.
Defined.

(** X2.  When the answer to a pending [sendMessage] call arrives with a
    status in 200..299 and a body whose [response] is a string, that
    string is appended as a speakable assistant line to the conversation
    as it is at that moment; the call is marked settled and nothing else
    changes. *)
Theorem X2_chat_reply_is_rendered :
  forall (st : State) (id : nat) (req : Request) (r : Response)
         (fields : list (string * jsval)) (reply : string),
    nth_error (fetches st) id = Some (pending_call req SiteChat) ->
    ok r = true ->
    body_json r = Some (JObj fields) ->
    lookup_field "response" fields = Some (JStr reply) ->
    handle (FetchSettles id (FetchResolves r)) st
    = set_chatBox (chatBox st ++ [speakable_line reply]) (settle id st).
Proof.
  intros st id req r fields reply Hp Hok Hb Hf.
  apply (handle_settles id _ st _ req SiteChat Hp). cbn [resume].
  now rewrite (sendMessage_resume_reply r fields reply _ Hok Hb Hf).
Qed.

Lemma X2_witness :
  handle (FetchSettles 0 (FetchResolves sample_reply)) awaiting_chat
  = set_chatBox (chatBox awaiting_chat ++ [speakable_line "Hi <there>"])
      (settle 0 awaiting_chat).
Proof.
  exact (X2_chat_reply_is_rendered awaiting_chat 0 (chat_request "hi" "mental_health")
           sample_reply [("response", JStr "Hi <there>")] "Hi <there>"
           eq_refl eq_refl eq_refl eq_refl).
Defined.

(** X3.  A rejected fetch, at any of the four call sites, is caught
    there: one fixed failure line of that site is appended, one console
    trace is left, no request is issued again, and nothing is left
    uncaught. *)
Theorem X3_rejected_fetch_is_caught :
  forall (st : State) (id : nat) (req : Request) (site : Site) (e : JsError),
    nth_error (fetches st) id = Some (pending_call req site) ->
    handle (FetchSettles id (FetchRejects e)) st
    = set_chatBox (chatBox st ++ [failure_line site])
        (set_console (console st ++ [(failure_label site, e)]) (settle id st))
    /\ requests (handle (FetchSettles id (FetchRejects e)) st) = requests st
    /\ uncaught (handle (FetchSettles id (FetchRejects e)) st) = uncaught st.
Proof.
  intros st id req site e Hp.
  assert (E : handle (FetchSettles id (FetchRejects e)) st
              = set_chatBox (chatBox st ++ [failure_line site])
                  (set_console (console st ++ [(failure_label site, e)]) (settle id st))).
  { apply (handle_settles id _ st _ req site Hp).
    now rewrite rejected_fetch_is_reported. }
  split; [exact E|]. rewrite E. split; [|reflexivity].
  exact (requests_settle id st).
Qed.

Lemma X3_witness :
  handle (FetchSettles 0 (FetchRejects offline)) awaiting_chat
  = set_chatBox (chatBox awaiting_chat ++ [failure_line SiteChat])
      (set_console (console awaiting_chat ++ [(failure_label SiteChat, offline)])
         (settle 0 awaiting_chat)).
Proof.
  exact (proj1 (X3_rejected_fetch_is_caught awaiting_chat 0
                  (chat_request "hi" "mental_health") SiteChat offline eq_refl)).
Defined.

(** ** Answers without a reply *)

Lemma sendMessage_resume_no_reply (r : Response) (st : State) :
  reply_of r = None ->
  exists trace,
    sendMessage_resume (FetchResolves r) st
    = (Ok tt,
       set_chatBox (chatBox st ++ [failure_line SiteChat])
         (set_console (console st ++ [(failure_label SiteChat, trace)]) st)).
Proof.
  intros Hr. destruct (ok r) eqn:Hok.
  - revert Hr.
    unfold reply_of, sendMessage_resume, try_catch, bind, await_fetch, ret, response_json.
    rewrite Hok. cbn [negb].
    destruct (body_json r) as [[| |b|z|s|l|fields]|]; intros Hr;
      try (eexists; cbn; reflexivity).
    unfold get_prop, ret, field_of.
    destruct (lookup_field "response" fields) as [[| |b|z|s|l|fs]|];
      try (eexists; cbn; reflexivity).
    discriminate Hr.
  - eexists. now rewrite sendMessage_resume_not_ok.
Qed.

(** X4.  An answer to the greeting or to a chat message whose body is
    not JSON, is not an object, or has no string under [response] ends
    in the fixed failure line of that call site, with a console trace
    and nothing uncaught: rendering the missing reply throws inside the
    [try], before the page is touched, and the [catch] reports it. *)
Theorem X4_answer_without_reply_is_a_failure :
  forall (st : State) (id : nat) (req : Request) (site : Site) (r : Response),
    site = SiteGreeting \/ site = SiteChat ->
    nth_error (fetches st) id = Some (pending_call req site) ->
    reply_of r = None ->
    exists trace,
      handle (FetchSettles id (FetchResolves r)) st
      = set_chatBox (chatBox st ++ [failure_line site])
          (set_console (console st ++ [(failure_label site, trace)]) (settle id st)).
Proof.
  intros st id req site r Hs Hp Hr. destruct Hs as [-> | ->].
  - pose proof (sendInitialGreeting_resume_cases r (settle id st)) as H.
    rewrite Hr in H. destruct H as [trace H]. exists trace.
    exact (handle_settles id _ st _ req SiteGreeting Hp H).
  - destruct (sendMessage_resume_no_reply r (settle id st) Hr) as [trace H].
    exists trace. exact (handle_settles id _ st _ req SiteChat Hp H).
Qed.

Lemma X4_witness :
  exists trace,
    handle (FetchSettles 0 (FetchResolves error_without_fields)) awaiting_chat
    = set_chatBox (chatBox awaiting_chat ++ [failure_line SiteChat])
        (set_console (console awaiting_chat ++ [(failure_label SiteChat, trace)])
           (settle 0 awaiting_chat)).
Proof.
  exact (X4_answer_without_reply_is_a_failure awaiting_chat 0
           (chat_request "hi" "mental_health") SiteChat error_without_fields
           (or_intror eq_refl) eq_refl eq_refl).
Defined.

(** ** Rendering, further *)

(** X5.  [displayMessage] with a text that is not a string throws a
    [TypeError] at line 16 and leaves the page as it was: no line is
    appended, whatever the sender and the flag. *)
Theorem X5_displayMessage_rejects_non_strings :
  forall (sender : string) (v : jsval) (canSpeak : bool) (st : State),
    (forall s, v <> JStr s) ->
    exists message,
      displayMessage sender v canSpeak st = (Throw (TypeError message), st).
Proof.
  intros sender v canSpeak st Hv.
  destruct v as [| |b|z|s|l|fields]; try (eexists; reflexivity).
  now contradiction (Hv s).
Qed.

Lemma X5_witness :
  exists message,
    displayMessage "MindMate" JUndefined true initial_state
    = (Throw (TypeError message), initial_state).
Proof.
  apply (X5_displayMessage_rejects_non_strings "MindMate" JUndefined true initial_state).
  discriminate.
Defined.

Lemma replaceAllChar_absent (c : ascii) (r s : string) :
  ~ occurs c s -> replaceAllChar c r s = s.
Proof.
  unfold occurs. induction s as [|a s IH]; simpl; [reflexivity|].
  intros H. destruct (Ascii.eqb_spec a c) as [->|_].
  - contradiction H. now left.
  - rewrite IH; [reflexivity|]. intros H'. apply H. now right.
Qed.

(** X6.  The escaping of line 16 leaves a text as it is exactly when
    the text has no [<] and no [>]; escaping an escaped text changes
    nothing more. *)
Theorem X6_sanitize_fixed_points :
  forall t : string,
    (sanitize t = t <-> ~ occurs "<" t /\ ~ occurs ">" t)
    /\ sanitize (sanitize t) = sanitize t.
Proof.
  assert (Hfix : forall t, ~ occurs "<" t -> ~ occurs ">" t -> sanitize t = t).
  { intros t Hl Hg. unfold sanitize.
    rewrite (replaceAllChar_absent "<" _ t Hl). now apply replaceAllChar_absent. }
  intros t. split; [split|].
  - intros E. rewrite <- E. split; [apply sanitize_no_lt|apply sanitize_no_gt].
  - intros [Hl Hg]. now apply Hfix.
  - apply Hfix; [apply sanitize_no_lt|apply sanitize_no_gt].
Qed.

(** ** Transcription *)





(** ** A recording from start to submission *)




Lemma handle_grant (id : nat) (st : State) :
  nth_error (micRequests st) id = Some false ->
  handle (MicSettles id (MicGrants NoFault)) st
  = set_recorders (recorders st ++ [mkRecorder (length (streams st)) Recording false])
      (set_audioChunks []
         (set_mediaRecorder (Some (length (recorders st)))
            (set_voiceBtn_text rec_label
               (set_voiceBtn_recording true
                  (set_streams (streams st ++ [true])
                     (set_micRequests (update_nth id (fun _ => true) (micRequests st))
                        st)))))).
Proof.
  intros Hp. apply run_ok. cbn [handler]. rewrite (onMicSettles_pending id _ st Hp).
  now rewrite onVoiceClick_resume_started.
Qed.

Lemma handle_stop_click (rid : nat) (r : Recorder) (st : State) :
  voiceBtn_recording st = true ->
  mediaRecorder st = Some rid ->
  nth_error (recorders st) rid = Some r ->
  is_recording r = true ->
  handle VoiceClick st
  = set_voiceBtn_text mic_label
      (set_voiceBtn_recording false
         (set_recorders
            (update_nth rid (fun r => mkRecorder (rec_stream r) Inactive true) (recorders st))
            st)).
Proof.
  intros Hflag Hmr Hr Hrec. apply run_ok. cbn [handler]. unfold onVoiceClick, bind, gets.
  rewrite Hflag, Hmr, Hr, Hrec. reflexivity.
Qed.

Lemma handle_stop_event (rid : nat) (r : Recorder) (st : State) :
  nth_error (recorders st) rid = Some r ->
  is_recording r || rec_stop_queued r = true ->
  handle (RecorderStops rid) st
  = set_fetches
      (fetches st
       ++ [pending_call (transcribe_request (new_Blob (audioChunks st) "audio/webm"))
             SiteTranscribe])
      (set_streams (update_nth (rec_stream r) (fun _ => false) (streams st))
         (set_recorders
            (update_nth rid (fun r => mkRecorder (rec_stream r) Inactive false) (recorders st))
            st)).
Proof.
  intros Hr Ha. apply run_ok. cbn [handler].
  rewrite (onRecorderStops_fires rid r st Hr Ha). reflexivity.
Qed.



(** ** Text to speech *)

Lemma handle_speech_plays (st : State) (id : nat) (req : Request) (r : Response) (b : Blob) :
  nth_error (fetches st) id = Some (pending_call req SiteSpeak) ->
  ok r = true ->
  body_blob r = Some b ->
  handle (FetchSettles id (FetchResolves r)) st = playing b (settle id st).
Proof.
  intros Hp Hok Hb.
  apply (handle_settles id _ st _ req SiteSpeak Hp). cbn [resume].
  unfold speakText_resume, try_catch, bind at 1, await_fetch, ret.
  rewrite Hok. unfold bind at 1, response_blob. rewrite Hb. reflexivity.
Qed.

(** X10.  When the answer to a pending [speakText] call has a status in
    200..299 and its body can be read, an object URL is made for the
    body, becomes the source of the audio element and is played once; no
    line is rendered.  The [ended] event that follows revokes that URL. *)
Theorem X10_speech_is_played_and_released :
  forall (st : State) (id : nat) (req : Request) (r : Response) (b : Blob),
    nth_error (fetches st) id = Some (pending_call req SiteSpeak) ->
    ok r = true ->
    body_blob r = Some b ->
    handle (FetchSettles id (FetchResolves r)) st = playing b (settle id st)
    /\ chatBox (handle (FetchSettles id (FetchResolves r)) st) = chatBox st
    /\ objectURLs (handle AudioEnded (handle (FetchSettles id (FetchResolves r)) st))
       = (objectURLs st ++ [mkURL b true])%list.
Proof.
  intros st id req r b Hp Hok Hb.
  pose proof (handle_speech_plays st id req r b Hp Hok Hb) as E.
  split; [exact E|]. rewrite E. split; [reflexivity|].
  unfold handle at 1, run, detached. cbn [handler]. unfold onended, bind, gets, modify.
  cbn -[update_nth]. rewrite update_nth_snoc. reflexivity.
Qed.

Lemma X10_witness :
  handle (FetchSettles 1 (FetchResolves speech_answer)) awaiting_speech
  = playing spoken_audio (settle 1 awaiting_speech)
  /\ objectURLs
       (handle AudioEnded (handle (FetchSettles 1 (FetchResolves speech_answer)) awaiting_speech))
     = (objectURLs awaiting_speech ++ [mkURL spoken_audio true])%list.
Proof.
  destruct (X10_speech_is_played_and_released awaiting_speech 1
              (speak_request (JStr "Hi <there>")) speech_answer spoken_audio
              eq_refl eq_refl eq_refl) as [H1 [_ H2]].
  split; [exact H1|exact H2].
Defined.



(** ** Nothing escapes a handler *)















(** ** The conversation only grows, except on a mode switch *)

Lemma displayMessage_extends (old : list Element) (sender : string) (v : jsval)
      (canSpeak : bool) :
  preserves (extends old) (displayMessage sender v canSpeak).
Proof.
  intros st [new H]. destruct v; try (now exists new).
  rewrite displayMessage_string. cbn [snd]. unfold extends. cbn [chatBox set_chatBox].
  rewrite H, <- app_assoc. eexists. reflexivity.
Qed.

Lemma handler_extends (old : list Element) (e : Event) :
  e <> MentalHealthClick -> e <> StudyBuddyClick ->
  preserves (extends old) (handler e).
Proof.
  intros H1 H2.
  destruct e; try (now contradiction H1); try (now contradiction H2);
    preserve ltac:(apply displayMessage_extends)
             ltac:(first [exact (fun _ _ H => H) | intros; assumption]).
Qed.

(** X13.  Rendered lines are never removed or rewritten by any event
    other than a click on a mode button: after the event the conversation
    is the one before it, followed by the lines the event rendered. *)
Theorem X13_conversation_only_grows :
  forall (e : Event) (st : State),
    e <> MentalHealthClick ->
    e <> StudyBuddyClick ->
    exists new, chatBox (handle e st) = (chatBox st ++ new)%list.
Proof.
  intros e st H1 H2. unfold handle.
  apply (preserves_run (extends (chatBox st)) (fun _ _ H => H) _ st
           (handler_extends (chatBox st) e H1 H2)).
  exists []. now rewrite app_nil_r.
Qed.

Lemma X13_witness :
  exists new,
    chatBox (handle (FetchSettles 0 (FetchResolves server_error)) awaiting_chat)
    = (chatBox awaiting_chat ++ new)%list.
Proof.
  apply (X13_conversation_only_grows (FetchSettles 0 (FetchResolves server_error)) awaiting_chat);
    discriminate.
Defined.

(** ** What trimming leaves *)

Lemma trimStart_clean_upto (n : nat) :
  forall s, String.length s <= n -> starts_ws (trimStart s) = false.
Proof.
  induction n as [|n IH]; intros s Hlen.
  - destruct s; [reflexivity|cbn in Hlen; lia].
  - destruct s as [|a s1]; [reflexivity|]. cbn [String.length] in Hlen.
    cbn [trimStart]. destruct (ws1 a) eqn:E1; [apply IH; lia|].
    destruct s1 as [|b s2]; [cbn [starts_ws]; now rewrite E1|].
    cbn [String.length] in Hlen.
    destruct (ws2 a b) eqn:E2; [apply IH; lia|].
    destruct s2 as [|c s3]; [cbn [starts_ws]; now rewrite E1, E2|].
    cbn [String.length] in Hlen.
    destruct (ws3 a b c) eqn:E3; [apply IH; lia|].
    cbn [starts_ws]. now rewrite E1, E2, E3.
Qed.

Lemma trimStartRev_clean_upto (n : nat) :
  forall s, String.length s <= n -> starts_ws_rev (trimStartRev s) = false.
Proof.
  induction n as [|n IH]; intros s Hlen.
  - destruct s; [reflexivity|cbn in Hlen; lia].
  - destruct s as [|a s1]; [reflexivity|]. cbn [String.length] in Hlen.
    cbn [trimStartRev]. destruct (ws1 a) eqn:E1; [apply IH; lia|].
    destruct s1 as [|b s2]; [cbn [starts_ws_rev]; now rewrite E1|].
    cbn [String.length] in Hlen.
    destruct (ws2 b a) eqn:E2; [apply IH; lia|].
    destruct s2 as [|c s3]; [cbn [starts_ws_rev]; now rewrite E1, E2|].
    cbn [String.length] in Hlen.
    destruct (ws3 c b a) eqn:E3; [apply IH; lia|].
    cbn [starts_ws_rev]. now rewrite E1, E2, E3.
Qed.

(** What [trimStartRev] returns is the end of its argument. *)
Lemma trimStartRev_suffix_upto (n : nat) :
  forall s, String.length s <= n -> exists p, s = p ++ trimStartRev s.
Proof.
  induction n as [|n IH]; intros s Hlen.
  - destruct s; [now exists ""|cbn in Hlen; lia].
  - destruct s as [|a s1]; [now exists ""|]. cbn [String.length] in Hlen.
    cbn [trimStartRev]. destruct (ws1 a).
    { destruct (IH s1 ltac:(lia)) as [p Hp]. exists (String a p). cbn. now rewrite <- Hp. }
    destruct s1 as [|b s2]; [now exists ""|]. cbn [String.length] in Hlen.
    destruct (ws2 b a).
    { destruct (IH s2 ltac:(lia)) as [p Hp]. exists (String a (String b p)).
      cbn. now rewrite <- Hp. }
    destruct s2 as [|c s3]; [now exists ""|]. cbn [String.length] in Hlen.
    destruct (ws3 c b a); [|now exists ""].
    destruct (IH s3 ltac:(lia)) as [p Hp]. exists (String a (String b (String c p))).
    cbn. now rewrite <- Hp.
Qed.

Lemma trimStart_fixed (s : string) : starts_ws s = false -> trimStart s = s.
Proof.
  destruct s as [|a [|b [|c s3]]]; cbn [starts_ws trimStart]; intros H; try reflexivity.
  - apply orb_false_elim in H. destruct H as [H1 _]. now rewrite H1.
  - apply orb_false_elim in H. destruct H as [H1 H].
    apply orb_false_elim in H. destruct H as [H2 _]. now rewrite H1, H2.
  - apply orb_false_elim in H. destruct H as [H1 H].
    apply orb_false_elim in H. destruct H as [H2 H3]. now rewrite H1, H2, H3.
Qed.

Lemma trimStartRev_fixed (s : string) : starts_ws_rev s = false -> trimStartRev s = s.
Proof.
  destruct s as [|a [|b [|c s3]]]; cbn [starts_ws_rev trimStartRev]; intros H; try reflexivity.
  - apply orb_false_elim in H. destruct H as [H1 _]. now rewrite H1.
  - apply orb_false_elim in H. destruct H as [H1 H].
    apply orb_false_elim in H. destruct H as [H2 _]. now rewrite H1, H2.
  - apply orb_false_elim in H. destruct H as [H1 H].
    apply orb_false_elim in H. destruct H as [H2 H3]. now rewrite H1, H2, H3.
Qed.

(** The start of a text that does not start with white space does not either. *)
Lemma starts_ws_prefix (p q : string) : starts_ws (p ++ q) = false -> starts_ws p = false.
Proof.
  destruct p as [|a [|b [|c p3]]]; cbn [starts_ws append]; intros H; try reflexivity.
  - apply orb_false_elim in H. destruct H as [H _]. now rewrite H.
  - apply orb_false_elim in H. destruct H as [H1 H].
    apply orb_false_elim in H. destruct H as [H2 _]. now rewrite H1, H2.
  - exact H.
Qed.

Lemma string_of_list_ascii_app (l1 l2 : list ascii) :
  string_of_list_ascii (l1 ++ l2) = string_of_list_ascii l1 ++ string_of_list_ascii l2.
Proof. induction l1 as [|a l1 IH]; cbn; [reflexivity|now rewrite IH]. Qed.

Lemma list_ascii_of_string_app (s1 s2 : string) :
  list_ascii_of_string (s1 ++ s2)
  = (list_ascii_of_string s1 ++ list_ascii_of_string s2)%list.
Proof. induction s1 as [|a s1 IH]; cbn; [reflexivity|now rewrite IH]. Qed.

Lemma rev_string_involutive (s : string) : rev_string (rev_string s) = s.
Proof.
  unfold rev_string.
  now rewrite list_ascii_of_string_of_list_ascii, rev_involutive,
    string_of_list_ascii_of_string.
Qed.

Lemma rev_string_app (s1 s2 : string) :
  rev_string (s1 ++ s2) = rev_string s2 ++ rev_string s1.
Proof.
  unfold rev_string. now rewrite list_ascii_of_string_app, rev_app_distr,
    string_of_list_ascii_app.
Qed.

Lemma string_length_le (s : string) : String.length s <= String.length s.
Proof. apply Nat.le_refl. Qed.

(** What [trimEnd] returns is the start of its argument. *)
Lemma trimEnd_prefix (s : string) : exists q, s = trimEnd s ++ q.
Proof.
  unfold trimEnd.
  destruct (trimStartRev_suffix_upto _ (rev_string s) (string_length_le _)) as [p Hp].
  exists (rev_string p).
  rewrite <- rev_string_app, <- Hp. symmetry. apply rev_string_involutive.
Qed.

Lemma trimEnd_clean (s : string) : ends_ws (trimEnd s) = false.
Proof.
  unfold ends_ws, trimEnd. rewrite rev_string_involutive.
  exact (trimStartRev_clean_upto _ _ (string_length_le _)).
Qed.

Lemma trimEnd_fixed (s : string) : ends_ws s = false -> trimEnd s = s.
Proof.
  unfold ends_ws, trimEnd. intros H. rewrite (trimStartRev_fixed _ H).
  apply rev_string_involutive.
Qed.

(** What [trim] returns neither starts nor ends with white space. *)
Lemma trim_clean (s : string) : starts_ws (trim s) = false /\ ends_ws (trim s) = false.
Proof.
  unfold trim. split; [|apply trimEnd_clean].
  destruct (trimEnd_prefix (trimStart s)) as [q Hq].
  apply (starts_ws_prefix _ q). rewrite <- Hq.
  exact (trimStart_clean_upto _ _ (string_length_le _)).
Qed.

Lemma trim_fixed (s : string) : starts_ws s = false -> ends_ws s = false -> trim s = s.
Proof.
  intros H1 H2. unfold trim. rewrite (trimStart_fixed s H1). now apply trimEnd_fixed.
Qed.

(** ** What the script sends *)

Lemma Forall_update_nth {A} (P : A -> Prop) (n : nat) (f : A -> A) (l : list A) :
  (forall x, P x -> P (f x)) -> Forall P l -> Forall P (update_nth n f l).
Proof.
  intros Hf Hl. apply Forall_forall. intros y Hy.
  apply In_nth_error in Hy. destruct Hy as [m Hm].
  rewrite nth_error_update_nth in Hm. rewrite Forall_forall in Hl.
  destruct (Nat.eqb m n).
  - destruct (nth_error l n) as [x|] eqn:E; [|discriminate].
    injection Hm as <-. apply Hf, Hl. exact (nth_error_In _ _ E).
  - apply Hl. exact (nth_error_In _ _ Hm).
Qed.

Lemma well_formed_call (c : FetchCall) (st : State) :
  call_ok c -> well_formed st -> well_formed (set_fetches (fetches st ++ [c]) st).
Proof.
  intros Hc [Hm [Hl Hf]]. split; [exact Hm|]. split; [exact Hl|].
  cbn [fetches set_fetches]. apply Forall_app. split; [exact Hf|]. now constructor.
Qed.

Lemma well_formed_settle (id : nat) (st : State) : well_formed st -> well_formed (settle id st).
Proof.
  intros [Hm [Hl Hf]]. split; [exact Hm|]. split; [exact Hl|].
  unfold settle. cbn [fetches set_fetches]. apply Forall_update_nth; [|exact Hf].
  intros c Hc. exact Hc.
Qed.

Lemma displayMessage_well_formed (sender : string) (v : jsval) (canSpeak : bool) :
  preserves well_formed (displayMessage sender v canSpeak).
Proof.
  intros st [Hm [Hl Hf]]. split; [|split].
  - destruct v; exact Hm.
  - now apply displayMessage_lines_ok.
  - destruct v; exact Hf.
Qed.

Lemma sendInitialGreeting_well_formed : preserves well_formed sendInitialGreeting.
Proof.
  intros st H. rewrite sendInitialGreeting_issues. cbn [snd].
  apply well_formed_call; [|exact H]. exists (currentChatMode st).
  split; [apply H|reflexivity].
Qed.

Lemma sendMessage_well_formed : preserves well_formed sendMessage.
Proof.
  intros st H. unfold sendMessage, detached, bind, gets.
  destruct (trim (userInput st) =? "") eqn:E; [exact H|].
  cbn [snd displayMessage_string].
  apply (well_formed_call
           (pending_call (chat_request (trim (userInput st)) (currentChatMode st)) SiteChat)
           (set_userInput ""
              (set_chatBox (chatBox st ++ [plain_line "You" (trim (userInput st))]) st))).
  - exists (trim (userInput st)), (currentChatMode st). split; [|split].
    + split; [now apply String.eqb_neq|apply trim_clean].
    + apply H.
    + reflexivity.
  - destruct H as [Hm [Hl Hf]]. split; [exact Hm|]. split; [|exact Hf].
    apply (displayMessage_lines_ok "You" (JStr (trim (userInput st))) false st Hl).
Qed.

Lemma onstop_well_formed (stream : nat) : preserves well_formed (onstop stream).
Proof.
  intros st H.
  exact (well_formed_call
           (pending_call (transcribe_request (new_Blob (audioChunks st) "audio/webm"))
              SiteTranscribe)
           (set_streams (update_nth stream (fun _ => false) (streams st)) st)
           (ex_intro _ _ eq_refl) H).
Qed.

Lemma onSpeakClick_well_formed (i : nat) : preserves well_formed (onSpeakClick i).
Proof.
  intros st H. unfold onSpeakClick, bind, gets.
  destruct (nth_error (chatBox st) i) as [[html [icon|]]|] eqn:E; try exact H.
  assert (Hline : line_ok (mkElement html (Some icon))).
  { destruct H as [_ [Hl _]]. unfold lines_ok in Hl. rewrite Forall_forall in Hl.
    exact (Hl _ (nth_error_In _ _ E)). }
  destruct Hline as [t Ht]. injection Ht as _ ->.
  exact (well_formed_call (pending_call (speak_request (JStr t)) SiteSpeak) st
           (ex_intro _ t eq_refl) H).
Qed.

Lemma handler_well_formed (e : Event) : preserves well_formed (handler e).
Proof.
  destruct e;
    preserve
      ltac:(first [ apply displayMessage_well_formed
                  | apply sendInitialGreeting_well_formed
                  | apply sendMessage_well_formed
                  | apply onstop_well_formed
                  | apply onSpeakClick_well_formed ])
      ltac:(first [ exact (fun _ _ H => H)
                  | intros; assumption
                  | intros; apply well_formed_settle; assumption
                  | intros ? [? [? ?]]; split; [|split];
                    first [ assumption | now left | now right | now constructor ] ]).
Qed.

(** X14.  In every reachable state the mode is one of the two modes,
    and every request the script has issued has the shape of its call
    site: a greeting carries the fixed greeting text and one of the two
    modes; a chat message carries one of the two modes and a text that is
    not empty and has no white space at either end; a transcription
    request carries one [audio/webm] clip under [audio], named
    [audio.webm]; a synthesis request carries a string. *)
Theorem X14_requests_are_well_formed :
  forall st : State,
    reachable st ->
    valid_mode (currentChatMode st)
    /\ (forall c, In c (fetches st) ->
          match fc_site c with
          | SiteGreeting =>
              exists m, valid_mode m
                        /\ fc_request c
                           = mkRequest "/chat" "POST" json_headers
                               (JsonBody (JObj [("message", JStr greeting_text);
                                                ("chat_type", JStr m)]))
          | SiteChat =>
              exists t m, t <> "" /\ starts_ws t = false /\ ends_ws t = false
                          /\ valid_mode m
                          /\ fc_request c
                             = mkRequest "/chat" "POST" json_headers
                                 (JsonBody (JObj [("message", JStr t);
                                                  ("chat_type", JStr m)]))
          | SiteTranscribe =>
              exists bytes,
                fc_request c
                = mkRequest "/speech_to_text" "POST" []
                    (FormBody [mkPart "audio" (mkBlob bytes "audio/webm") "audio.webm"])
          | SiteSpeak =>
              exists t,
                fc_request c
                = mkRequest "/text_to_speech" "POST" json_headers
                    (JsonBody (JObj [("text", JStr t)]))
          end).
Proof.
  intros st Hr.
  assert (H : well_formed st).
  { induction Hr as [|e st _ IH].
    - split; [now left|]. split; constructor.
    - unfold handle.
      exact (preserves_run well_formed (fun _ _ H => H) _ st (handler_well_formed e) IH). }
  destruct H as [Hm [_ Hf]]. split; [exact Hm|].
  intros c Hc. rewrite Forall_forall in Hf. specialize (Hf c Hc).
  unfold call_ok in Hf. destruct (fc_site c).
  - exact Hf.
  - destruct Hf as [t [m [[H1 [H2 H3]] [H4 H5]]]]. exists t, m. now repeat split.
  - exact Hf.
  - exact Hf.
Qed.

Lemma X14_witness :
  valid_mode (currentChatMode awaiting_chat)
  /\ exists t m, t <> "" /\ starts_ws t = false /\ ends_ws t = false
                 /\ valid_mode m
                 /\ chat_request "hi" "mental_health"
                    = mkRequest "/chat" "POST" json_headers
                        (JsonBody (JObj [("message", JStr t); ("chat_type", JStr m)])).
Proof.
  destruct (X14_requests_are_well_formed awaiting_chat
              (reach_step _ _ (reach_step _ _ reach_init))) as [H1 H2].
  split; [exact H1|].
  exact (H2 (pending_call (chat_request "hi" "mental_health") SiteChat) (or_introl eq_refl)).
Defined.

(** ** The microphone stream *)

Lemma nth_error_snoc_old {A} (l : list A) (x y : A) (n : nat) :
  nth_error l n = Some y -> nth_error (l ++ [x]) n = Some y.
Proof.
  intros H. rewrite nth_error_app1; [exact H|]. apply nth_error_Some. congruence.
Qed.

Lemma handler_keeps_live (s : nat) (e : Event) :
  (forall rid, e <> RecorderStops rid) -> preserves (live s) (handler e).
Proof.
  intros He.
  destruct e as [| | | | | |rid| | | | |]; try (now contradiction (He rid));
    preserve ltac:(fail)
             ltac:(first [ exact (fun _ _ H => H)
                         | intros; assumption
                         | intros; apply nth_error_snoc_old; assumption ]).
Qed.

(** X15.  The tracks of a granted microphone stream are stopped by one
    event only: the [stop] event of a recorder that records that stream
    and is recording or has been asked to stop.  No click, no answer and
    no other recorder releases it. *)
Theorem X15_stream_released_only_by_its_recorder :
  forall (e : Event) (st : State) (s : nat),
    live s st ->
    ~ live s (handle e st) ->
    exists rid r,
      e = RecorderStops rid
      /\ nth_error (recorders st) rid = Some r
      /\ rec_stream r = s
      /\ is_recording r || rec_stop_queued r = true.
Proof.
  intros e st s Hl Hn.
  assert (Hother : (forall rid, e <> RecorderStops rid) -> False).
  { intros He. apply Hn. unfold handle.
    exact (preserves_run (live s) (fun _ _ H => H) _ st (handler_keeps_live s e He) Hl). }
  destruct e as [| | | | | |rid| | | | |]; try (exfalso; apply Hother; discriminate).
  clear Hother. exists rid.
  destruct (nth_error (recorders st) rid) as [r|] eqn:Hr.
  - destruct (is_recording r || rec_stop_queued r) eqn:Ha.
    + exists r. split; [reflexivity|]. split; [reflexivity|]. split; [|exact Ha].
      destruct (Nat.eq_dec (rec_stream r) s) as [E|E]; [exact E|].
      exfalso. apply Hn. rewrite (handle_stop_event rid r st Hr Ha).
      unfold live. cbn [streams set_fetches set_streams].
      rewrite nth_error_update_nth.
      destruct (Nat.eqb_spec s (rec_stream r)) as [E'|_]; [now contradiction E|exact Hl].
    + exfalso. apply Hn.
      replace (handle (RecorderStops rid) st) with st; [exact Hl|].
      symmetry. apply run_ok. cbn [handler]. unfold onRecorderStops, bind, gets.
      now rewrite Hr, Ha.
  - exfalso. apply Hn.
    replace (handle (RecorderStops rid) st) with st; [exact Hl|].
    symmetry. apply run_ok. cbn [handler]. unfold onRecorderStops, bind, gets.
    now rewrite Hr.
Qed.

Lemma X15_witness :
  exists rid r,
    RecorderStops 0 = RecorderStops rid
    /\ nth_error (recorders stopping) rid = Some r
    /\ rec_stream r = 0
    /\ is_recording r || rec_stop_queued r = true.
Proof.
  apply (X15_stream_released_only_by_its_recorder (RecorderStops 0) stopping 0).
  - reflexivity.
  - discriminate.
Defined.

Lemma handle_start_click (st : State) :
  voiceBtn_recording st = false ->
  handle VoiceClick st = set_micRequests (micRequests st ++ [false]) st.
Proof.
  intros H. apply run_ok. cbn [handler]. unfold onVoiceClick, bind, gets.
  rewrite H. reflexivity.
Qed.

(** X16.  Two microphone requests pending at once, both granted: the
    second grant starts a second recorder on a second stream and
    [mediaRecorder] now refers to it alone.  The next click on the
    button stops that second recorder and shows the button as idle, while
    the first recorder is still recording and its stream is still live;
    the click after that asks for the microphone again. *)
Theorem X16_second_grant_orphans_the_first_recorder :
  forall (st : State) (id1 id2 : nat),
    id1 <> id2 ->
    nth_error (micRequests st) id1 = Some false ->
    nth_error (micRequests st) id2 = Some false ->
    let rid := length (recorders st) in
    let s := length (streams st) in
    let st2 := handle (MicSettles id2 (MicGrants NoFault))
                 (handle (MicSettles id1 (MicGrants NoFault)) st) in
    let st3 := handle VoiceClick st2 in
    mediaRecorder st2 = Some (S rid)
    /\ voiceBtn_recording st3 = false
    /\ nth_error (recorders st3) rid = Some (mkRecorder s Recording false)
    /\ live s st3
    /\ nth_error (recorders st3) (S rid) = Some (mkRecorder (S s) Inactive true)
    /\ micRequests (handle VoiceClick st3) = (micRequests st3 ++ [false])%list.
Proof.
  intros st id1 id2 Hne H1 H2 rid s st2 st3.
  pose proof (handle_grant id1 st H1) as E1.
  set (st1 := handle (MicSettles id1 (MicGrants NoFault)) st) in *.
  assert (H2' : nth_error (micRequests st1) id2 = Some false).
  { rewrite E1. cbn [micRequests set_recorders set_audioChunks set_mediaRecorder
                     set_voiceBtn_text set_voiceBtn_recording set_streams set_micRequests].
    rewrite nth_error_update_nth.
    destruct (Nat.eqb_spec id2 id1) as [E|_]; [now contradiction Hne|exact H2]. }
  pose proof (handle_grant id2 st1 H2') as E2. fold st2 in E2.
  assert (Hlen : length (recorders st1) = S rid).
  { rewrite E1. cbn [recorders set_recorders]. rewrite length_app. cbn. unfold rid. lia. }
  assert (Hstr : length (streams st1) = S s).
  { rewrite E1. cbn [streams set_recorders set_audioChunks set_mediaRecorder
                     set_voiceBtn_text set_voiceBtn_recording set_streams].
    rewrite length_app. cbn. unfold s. lia. }
  assert (Hr1 : nth_error (recorders st1) rid = Some (mkRecorder s Recording false)).
  { rewrite E1. apply nth_error_snoc. }
  assert (Hr2 : nth_error (recorders st2) (S rid) = Some (mkRecorder (S s) Recording false)).
  { rewrite E2. cbn [recorders set_recorders]. rewrite <- Hlen, <- Hstr. apply nth_error_snoc. }
  assert (Hmr : mediaRecorder st2 = Some (S rid)).
  { rewrite E2. cbn. now rewrite Hlen. }
  pose proof (handle_stop_click (S rid) _ st2 ltac:(rewrite E2; reflexivity) Hmr Hr2 eq_refl)
    as E3. fold st3 in E3.
  split; [exact Hmr|]. split; [rewrite E3; reflexivity|]. split; [|split; [|split]].
  - rewrite E3. cbn [recorders set_voiceBtn_text set_voiceBtn_recording set_recorders].
    rewrite nth_error_update_nth.
    destruct (Nat.eqb_spec rid (S rid)) as [E|_]; [lia|].
    rewrite E2. cbn [recorders set_recorders]. now apply nth_error_snoc_old.
  - unfold live. rewrite E3, E2.
    cbn [streams set_voiceBtn_text set_voiceBtn_recording set_recorders set_audioChunks
         set_mediaRecorder set_streams].
    apply nth_error_snoc_old. rewrite E1. apply nth_error_snoc.
  - rewrite E3. cbn [recorders set_voiceBtn_text set_voiceBtn_recording set_recorders].
    rewrite nth_error_update_nth, Nat.eqb_refl, Hr2. reflexivity.
  - rewrite (handle_start_click st3); [reflexivity|]. rewrite E3. reflexivity.
Qed.

Lemma X16_witness :
  nth_error
    (recorders
       (handle VoiceClick
          (handle (MicSettles 1 (MicGrants NoFault))
             (handle (MicSettles 0 (MicGrants NoFault)) asked_twice))))
    (length (recorders asked_twice))
  = Some (mkRecorder (length (streams asked_twice)) Recording false).
Proof.
  destruct (X16_second_grant_orphans_the_first_recorder asked_twice 0 1
              ltac:(discriminate) eq_refl eq_refl) as [_ [_ [H _]]].
  exact H.
Defined.

(** ** Object URLs *)

Lemma speakText_resume_superseded (u : nat) (b : Blob) (o : FetchOutcome) :
  preserves (superseded u b) (speakText_resume o).
Proof.
  intros st [Hu Hn]. destruct o as [e|r]; [split; assumption|].
  unfold speakText_resume, try_catch, bind at 1, await_fetch, ret.
  destruct (ok r).
  - unfold bind at 1, response_blob. destruct (body_blob r) as [b'|].
    + cbn. split; [now apply nth_error_snoc_old|].
      intros [= E]. assert (u < length (objectURLs st)) by (apply nth_error_Some; congruence).
      lia.
    + split; assumption.
  - unfold bind at 1, response_json.
    destruct (body_json r) as [[| |x|z|s|l|fields]|]; split; assumption.
Qed.

Lemma onended_superseded (u : nat) (b : Blob) : preserves (superseded u b) onended.
Proof.
  intros st [Hu Hn]. unfold onended, bind, gets.
  destruct (ttsAudio_onended st) as [v|] eqn:E.
  - unfold superseded. cbn -[update_nth]. split; [|rewrite E; exact Hn].
    rewrite nth_error_update_nth.
    destruct (Nat.eqb_spec u v) as [->|_]; [now contradiction Hn|exact Hu].
  - unfold superseded. cbn. split; [exact Hu|rewrite E; exact Hn].
Qed.

Lemma handler_superseded (u : nat) (b : Blob) (e : Event) :
  preserves (superseded u b) (handler e).
Proof.
  destruct e;
    preserve ltac:(first [apply speakText_resume_superseded | apply onended_superseded])
             ltac:(first [exact (fun _ _ H => H) | intros; assumption]).
Qed.

Lemma handle_all_superseded (u : nat) (b : Blob) (es : list Event) (st : State) :
  superseded u b st -> superseded u b (handle_all es st).
Proof.
  revert st. induction es as [|e es IH]; intros st H; [exact H|].
  apply (IH (handle e st)). unfold handle.
  exact (preserves_run (superseded u b) (fun _ _ H => H) _ st (handler_superseded u b e) H).
Qed.

(** X17.  When the audio of a synthesis answer starts to play, the
    [ended] handler of the audio element is replaced.  An object URL made
    for an earlier answer and not yet revoked at that moment is never
    revoked afterwards, whatever events follow. *)
Theorem X17_superseded_url_is_never_revoked :
  forall (st : State) (id : nat) (req : Request) (r : Response) (b b0 : Blob)
         (u : nat) (es : list Event),
    nth_error (fetches st) id = Some (pending_call req SiteSpeak) ->
    ok r = true ->
    body_blob r = Some b ->
    nth_error (objectURLs st) u = Some (mkURL b0 false) ->
    nth_error
      (objectURLs (handle_all es (handle (FetchSettles id (FetchResolves r)) st))) u
    = Some (mkURL b0 false).
Proof.
  intros st id req r b b0 u es Hp Hok Hb Hu.
  apply (handle_all_superseded u b0 es).
  rewrite (handle_speech_plays st id req r b Hp Hok Hb). split.
  - cbn. now apply nth_error_snoc_old.
  - cbn. intros [= E']. assert (u < length (objectURLs st)) by (apply nth_error_Some; congruence).
    lia.
Qed.

Lemma X17_witness :
  nth_error
    (objectURLs
       (handle_all [AudioEnded]
          (handle (FetchSettles 2 (FetchResolves speech_answer)) playing_first))) 0
  = Some (mkURL spoken_audio false).
Proof.
  exact (X17_superseded_url_is_never_revoked playing_first 2
           (speak_request (JStr "Hi <there>")) speech_answer spoken_audio spoken_audio
           0 [AudioEnded] eq_refl eq_refl eq_refl eq_refl).
Defined.

(** ** The mode and its marks *)

Lemma handler_keeps_mode (m : string) (a b : bool) (e : Event) :
  e <> MentalHealthClick -> e <> StudyBuddyClick ->
  preserves (mode_is m a b) (handler e).
Proof.
  intros H1 H2.
  destruct e; try (now contradiction H1); try (now contradiction H2);
    preserve ltac:(fail)
             ltac:(first [exact (fun _ _ H => H) | intros; assumption]).
Qed.

(** X18.  The mode, and the active marks of the two mode buttons, are
    changed by clicks on the mode buttons only; and after a click that
    changes the mode, the mark is on the button of the new mode and not
    on the other. *)
Theorem X18_mode_changes_only_on_mode_clicks :
  forall (e : Event) (st : State),
    (e <> MentalHealthClick -> e <> StudyBuddyClick ->
     currentChatMode (handle e st) = currentChatMode st
     /\ mentalHealth_active (handle e st) = mentalHealth_active st
     /\ studyBuddy_active (handle e st) = studyBuddy_active st)
    /\ (currentChatMode st <> "mental_health" ->
        mode_is "mental_health" true false (handle MentalHealthClick st))
    /\ (currentChatMode st <> "study_buddy" ->
        mode_is "study_buddy" false true (handle StudyBuddyClick st)).
Proof.
  intros e st. split; [|split].
  - intros H1 H2. unfold handle.
    exact (preserves_run
             (mode_is (currentChatMode st) (mentalHealth_active st) (studyBuddy_active st))
             (fun _ _ H => H) _ st (handler_keeps_mode _ _ _ e H1 H2)
             (conj eq_refl (conj eq_refl eq_refl))).
  - intros H. apply String.eqb_neq in H.
    unfold handle, run, handler, onMentalHealthClick, onModeClick, detached, bind, gets.
    rewrite H. repeat split.
  - intros H. apply String.eqb_neq in H.
    unfold handle, run, handler, onStudyBuddyClick, onModeClick, detached, bind, gets.
    rewrite H. repeat split.
Qed.

Lemma X18_witness :
  mode_is "study_buddy" false true (handle StudyBuddyClick greeted)
  /\ currentChatMode (handle (KeyPress "Enter") greeted) = currentChatMode greeted.
Proof.
  split.
  - apply (proj2 (proj2 (X18_mode_changes_only_on_mode_clicks StudyBuddyClick greeted))).
    discriminate.
  - apply (proj1 (X18_mode_changes_only_on_mode_clicks (KeyPress "Enter") greeted));
      discriminate.
Defined.
